(** * Task lifecycle and aggregation engine of the task-management backend

    A shallow embedding of
    - [app/domain/value_objects.py]  (status, priority, title, name, percentage),
    - [app/domain/models/task.py]    (the [Task] entity and its lifecycle),
    - [app/infrastructure/db/repositories.py] and the use cases
      [list_tasks], [create_task_list], [change_task_status],
    - [app/services/notification.py] (the mock e-mail notifier),
    followed by the properties of the specification that concern them.

    Conventions.  Python [int] is [Z]; [len] results are [nat]; a [str] is a
    list of Unicode code points; [datetime] values are instants on a line
    ([Z], microseconds); a Python [float] is a binary64 number, given by its
    exact rational value, and every operation on floats rounds as the
    hardware does ([Float]); the percentage of [list_tasks], over at most a
    hundred tasks, is computed on rationals and rounded to hundredths.  A
    function that may raise returns a [result]; code that
    reads or writes a session or a logger runs in the state-and-exception
    monad [M]. *)

From Stdlib Require Import ZArith NArith QArith Qround Qpower List String Ascii
  Bool Lia.
From Stdlib Require Floats.PrimFloat Floats.FloatOps Floats.SpecFloat
  Numbers.Cyclic.Int63.Uint63.
Import ListNotations.

Close Scope Q_scope.
Set Implicit Arguments.

(* ================================================================== *)
(** * Python values, strings and exceptions *)
(* ================================================================== *)

Module Py.

(** A [str] is a sequence of code points. *)
Definition codepoint := N.
Definition str := list codepoint.

Definition of_string (s : string) : str :=
  List.map N_of_ascii (list_ascii_of_string s).

Definition str_eqb (a b : str) : bool :=
  if list_eq_dec N.eq_dec a b then true else false.

(** [str.isspace] on one code point: the table CPython uses for
    [str.strip()] called without arguments. *)
Definition isspace (c : codepoint) : bool :=
  (((9 <=? c) && (c <=? 13)) || ((28 <=? c) && (c <=? 32))
   || (c =? 133) || (c =? 160) || (c =? 5760)
   || ((8192 <=? c) && (c <=? 8202))
   || (c =? 8232) || (c =? 8233) || (c =? 8239) || (c =? 8287)
   || (c =? 12288))%N.

Fixpoint lstrip (s : str) : str :=
  match s with
  | [] => []
  | c :: r => if isspace c then lstrip r else s
  end.

Definition rstrip (s : str) : str := rev (lstrip (rev s)).

(** [s.strip()] *)
Definition strip (s : str) : str := rstrip (lstrip s).

(** [s * n] for a one-character string. *)
Definition repeat_char (c : codepoint) (n : nat) : str := List.repeat c n.

(** The values that reach a format field or a truth test in the modelled
    code. *)
Inductive value :=
| VNone
| VInt (z : Z)
| VStr (s : str).

(** Python truth value. *)
Definition truthy (v : value) : bool :=
  match v with
  | VNone => false
  | VInt z => negb (z =? 0)%Z
  | VStr s => match s with [] => false | _ => true end
  end.

(** An f-string is kept as its pieces: literal text and formatted values. *)
Inductive fragment :=
| Lit (text : string)
| Fmt (v : value).

Definition message := list fragment.

(** The exceptions raised in the modelled code.  All of them derive from
    [Exception]. *)
Inductive exn :=
| ValueError (msg : message)
| ValidationError (msg : message)      (* pydantic.ValidationError *)
| NotFoundException (msg : message)
| ConflictException (msg : message)
| Exception (msg : message).

(** [str(e)] *)
Definition exn_message (e : exn) : message :=
  match e with
  | ValueError m | ValidationError m | NotFoundException m
  | ConflictException m | Exception m => m
  end.

Inductive result (A : Type) :=
| Ok (a : A)
| Raise (e : exn).
Arguments Ok {A} a.
Arguments Raise {A} e.

Definition is_ok {A} (r : result A) : bool :=
  match r with Ok _ => true | Raise _ => false end.

Definition rbind {A B} (r : result A) (k : A -> result B) : result B :=
  match r with
  | Ok a => k a
  | Raise e => Raise e
  end.

(** ** State and exceptions

    [M S A] is a computation over a state [S] (a session, a logger) that
    returns an [A] or raises; the state reached so far is kept when it
    raises. *)
Definition M (S A : Type) := S -> result A * S.

Definition ret {S A} (a : A) : M S A := fun s => (Ok a, s).
Definition raise {S A} (e : exn) : M S A := fun s => (Raise e, s).
Definition bind {S A B} (m : M S A) (k : A -> M S B) : M S B :=
  fun s => match m s with
           | (Ok a, s') => k a s'
           | (Raise e, s') => (Raise e, s')
           end.
Definition lift {S A} (r : result A) : M S A := fun s => (r, s).
Definition get {S} : M S S := fun s => (Ok s, s).
Definition put {S} (s : S) : M S unit := fun _ => (Ok tt, s).
Definition modify {S} (f : S -> S) : M S unit := fun s => (Ok tt, f s).

(** [try: body  except Exception as e: handler e] *)
Definition try_except {S A} (body : M S A) (handler : exn -> M S A) : M S A :=
  fun s => match body s with
           | (Ok a, s') => (Ok a, s')
           | (Raise e, s') => handler e s'
           end.

End Py.

Import Py.

Declare Scope py_scope.
Delimit Scope py_scope with py.
Notation "x <- m ;; k" := (bind m (fun x => k))
  (at level 61, m at next level, right associativity) : py_scope.
Notation "m ;;; k" := (bind m (fun _ => k))
  (at level 61, right associativity) : py_scope.

(* ================================================================== *)
(** * [app/domain/value_objects.py] *)
(* ================================================================== *)

(** The persistence layer ([app/infrastructure/db/models/task.py]) declares
    [TaskStatus] and [TaskPriority] a second time with the same members and
    the same string values; both are [str]-valued enumerations that compare
    by value, and one type stands for both here. *)
Module TaskStatus.

Inductive t := pending | in_progress | completed.

Definition eqb (a b : t) : bool :=
  match a, b with
  | pending, pending | in_progress, in_progress | completed, completed => true
  | _, _ => false
  end.

(** [TaskStatus.value] / [__str__] *)
Definition value (s : t) : string :=
  match s with
  | pending => "pending"
  | in_progress => "in_progress"
  | completed => "completed"
  end.

Definition get_completed_statuses : list t := [completed].
Definition get_active_statuses : list t := [pending; in_progress].

End TaskStatus.

Module TaskPriority.

Inductive t := low | medium | high.

Definition eqb (a b : t) : bool :=
  match a, b with
  | low, low | medium, medium | high, high => true
  | _, _ => false
  end.

Definition value (p : t) : string :=
  match p with
  | low => "low"
  | medium => "medium"
  | high => "high"
  end.

Definition get_order_value (p : t) : Z :=
  match p with
  | low => 1
  | medium => 2
  | high => 3
  end.

End TaskPriority.

(** ** Validated string wrappers

    [value: Annotated[str, Field(min_length=.., max_length=..)]] with a
    [@field_validator("value")] in its default ("after") mode: pydantic first
    checks the length constraints of the field on the string it is given,
    then runs the validator on that string; a [ValueError] raised by the
    validator surfaces as a [ValidationError]. *)

(** The length constraints of a [str] field, on the input as given. *)
Definition str_field (min_length max_length : nat) (v : str) : result str :=
  if (List.length v <? min_length)%nat then
    Raise (ValidationError [Lit "String should have at least ";
                            Fmt (VInt (Z.of_nat min_length)); Lit " character"])
  else if (max_length <? List.length v)%nat then
    Raise (ValidationError [Lit "String should have at most ";
                            Fmt (VInt (Z.of_nat max_length)); Lit " characters"])
  else Ok v.

(** A [ValueError] from a field validator becomes a [ValidationError]. *)
Definition as_validation_error {A} (r : result A) : result A :=
  match r with
  | Raise (ValueError m) => Raise (ValidationError m)
  | r' => r'
  end.

Module TaskListName.

Record t := mk { value : str }.

Definition min_length : nat := 1.
Definition max_length : nat := 100.

Definition validate_name (v : str) : result str :=
  match strip v with
  | [] => Raise (ValueError [Lit "Name cannot be empty"])
  | _ => Ok (strip v)
  end.

(** [TaskListName(value=v)] *)
Definition init (v : str) : result t :=
  rbind (str_field min_length max_length v) (fun v1 =>
  rbind (as_validation_error (validate_name v1)) (fun v2 =>
  Ok (mk v2))).

End TaskListName.

Module TaskTitle.

Record t := mk { value : str }.

Definition min_length : nat := 1.
Definition max_length : nat := 200.

Definition validate_title (v : str) : result str :=
  match strip v with
  | [] => Raise (ValueError [Lit "Title cannot be empty"])
  | _ => Ok (strip v)
  end.

(** [TaskTitle(value=v)] *)
Definition init (v : str) : result t :=
  rbind (str_field min_length max_length v) (fun v1 =>
  rbind (as_validation_error (validate_title v1)) (fun v2 =>
  Ok (mk v2))).

End TaskTitle.

(** ** Python floats

    The integer nearest to [x], ties to the even one. *)
Definition round_half_even (x : Q) : Z :=
  let f := Qfloor x in
  match Qcompare (x - inject_Z f)%Q (1 # 2)%Q with
  | Lt => f
  | Gt => (f + 1)%Z
  | Eq => if Z.even f then f else (f + 1)%Z
  end.

(** A float is a binary64 number, given by its exact value, or an
    infinity; the two zeros are one value.  Not-a-number is left out: no
    operation below produces it. *)
Module Float.

Inductive t :=
| Finite (q : Q)
| Infinity (negative : bool).

(** The exponent of the leading bit of a positive rational: the [k] with
    [2^k <= x < 2^(k+1)]. *)
Definition floor_log2 (x : Q) : Z :=
  let k := (Z.log2 (Qnum x) - Z.log2 (QDen x))%Z in
  if Qle_bool (2 ^ k)%Q x then k else (k - 1)%Z.

(** Rounding of a positive rational: 53 significant bits, no exponent below
    that of the subnormals, nearest with ties to even; overflow gives the
    infinity. *)
Definition round_positive (x : Q) : t :=
  let e := Z.max (floor_log2 x - 52) (-1074) in
  let m := round_half_even (x / 2 ^ e)%Q in
  let v := (inject_Z m * 2 ^ e)%Q in
  if Qle_bool (2 ^ 1024)%Q v then Infinity false else Finite (Qred v).

Definition opp (x : t) : t :=
  match x with
  | Finite q => Finite (Qred (- q))
  | Infinity s => Infinity (negb s)
  end.

(** The float nearest to a rational. *)
Definition round (x : Q) : t :=
  let x := Qred x in
  match Qcompare x 0 with
  | Eq => Finite 0
  | Gt => round_positive x
  | Lt => opp (round_positive (Qred (- x)))
  end.

(** [a / b] on integers: the exact quotient, rounded once. *)
Definition truediv (a b : Z) : result t :=
  if (b =? 0)%Z then
    Raise (Exception [Lit "ZeroDivisionError: division by zero"])
  else
    match round (inject_Z a / inject_Z b)%Q with
    | Finite q => Ok (Finite q)
    | Infinity _ =>
        Raise (Exception
                 [Lit "OverflowError: integer division result too large for a float"])
    end.

(** [x * y] for a finite, non-zero [y]. *)
Definition mul (x : t) (y : Q) : t :=
  match x with
  | Finite a => round (a * y)%Q
  | Infinity s =>
      Infinity (if Qle_bool 0%Q y then s else negb s)
  end.

(** [x <= y] and [x < y] *)
Definition leb (x y : t) : bool :=
  match x, y with
  | Finite a, Finite b => Qle_bool a b
  | Infinity true, _ => true
  | _, Infinity false => true
  | _, _ => false
  end.

Definition ltb (x y : t) : bool := negb (leb y x).

End Float.

(** ** [CompletionPercentage]

    [value: Annotated[float, Field(ge=0, le=100)]]. *)
Module CompletionPercentage.

Record t := mk { value : Float.t }.

(** [CompletionPercentage(value=v)]: the [ge=0], [le=100] constraints. *)
Definition init (v : Float.t) : result t :=
  if Float.leb (Float.Finite 0) v then
    if Float.leb v (Float.Finite 100) then Ok (mk v)
    else Raise (ValidationError [Lit "Input should be less than or equal to 100"])
  else Raise (ValidationError [Lit "Input should be greater than or equal to 0"]).

Definition calculate_from_tasks (total_tasks completed_tasks : Z) : result t :=
  if (total_tasks =? 0)%Z then init (Float.Finite 0)
  else
    rbind (Float.truediv completed_tasks total_tasks) (fun quotient =>
      let percentage := Float.mul quotient 100 in
      init percentage).

End CompletionPercentage.

(** The same computation on the machine's floats, to compare the rounding
    of [Float] with: [value_of] reads a machine float as a [Float.t], and
    [percentage] is [(completed_tasks / total_tasks) * 100] for counts below
    [2^53], which convert to floats exactly. *)
Module Hardware.

Definition value_of (f : PrimFloat.float) : option Float.t :=
  match FloatOps.Prim2SF f with
  | SpecFloat.S754_zero _ => Some (Float.Finite 0)
  | SpecFloat.S754_infinity s => Some (Float.Infinity s)
  | SpecFloat.S754_nan => None
  | SpecFloat.S754_finite s m e =>
      let v := (inject_Z (Zpos m) * 2 ^ e)%Q in
      Some (Float.Finite (Qred (if s then - v else v)))
  end.

Definition of_int (n : Z) : PrimFloat.float :=
  PrimFloat.of_uint63 (Uint63.of_Z n).

Definition percentage (total_tasks completed_tasks : Z) : option Float.t :=
  value_of (PrimFloat.mul
              (PrimFloat.div (of_int completed_tasks) (of_int total_tasks))
              (of_int 100)).

Definition same (x : option Float.t) (y : result CompletionPercentage.t)
  : bool :=
  match x, y with
  | Some (Float.Finite a), Ok (CompletionPercentage.mk (Float.Finite b)) =>
      Qeq_bool a b
  | _, _ => false
  end.

(** Whether the two computations agree on every [1 <= total <= n] and
    [0 <= completed <= total]. *)
Definition agree (n : nat) : bool :=
  forallb (fun total =>
     forallb (fun completed =>
        same (percentage (Z.of_nat total) (Z.of_nat completed))
             (CompletionPercentage.calculate_from_tasks
                (Z.of_nat total) (Z.of_nat completed)))
       (seq 0 (S total)))
    (seq 1 n).

End Hardware.

(* ================================================================== *)
(** * [app/domain/models/task.py] *)
(* ================================================================== *)

(** An instant; [datetime.now()] is an input of every operation that reads
    the clock. *)
Definition datetime := Z.
Bind Scope Z_scope with datetime.

Module Task.

(** The fields of the dataclass.  [created_at] and [updated_at] are
    [Optional] arguments of the constructor and are never [None] once
    [__post_init__] has run. *)
Record t := mk {
  title : TaskTitle.t;
  task_list_id : Z;
  id : option Z;
  description : option str;
  status : TaskStatus.t;
  priority : TaskPriority.t;
  user_id : option Z;
  created_at : datetime;
  updated_at : datetime
}.

(** [Task(...)]: the generated [__init__] followed by [__post_init__];
    [now] is what [datetime.now()] returns there.  The Python defaults are
    [id=None], [description=None], [status=pending], [priority=medium],
    [user_id=None], [created_at=None], [updated_at=None]. *)
Definition init (now : datetime)
    (title : TaskTitle.t) (task_list_id : Z) (id : option Z)
    (description : option str) (status : TaskStatus.t)
    (priority : TaskPriority.t) (user_id : option Z)
    (created_at updated_at : option datetime) : t :=
  let created := match created_at with None => now | Some c => c end in
  let updated := match updated_at with None => created | Some u => u end in
  mk title task_list_id id description status priority user_id created updated.

(** [Task(title=.., task_list_id=..)] with every default. *)
Definition init_default (now : datetime) (title : TaskTitle.t)
    (task_list_id : Z) : t :=
  init now title task_list_id None None TaskStatus.pending
       TaskPriority.medium None None None.

(** The [valid_transitions] dictionary. *)
Definition valid_transitions : list (TaskStatus.t * list TaskStatus.t) :=
  [ (TaskStatus.pending,
       [TaskStatus.in_progress; TaskStatus.completed]);
    (TaskStatus.in_progress,
       [TaskStatus.pending; TaskStatus.completed]);
    (TaskStatus.completed,
       [TaskStatus.pending; TaskStatus.in_progress]) ].

(** [valid_transitions.get(from_status, [])] *)
Fixpoint dict_get (d : list (TaskStatus.t * list TaskStatus.t))
    (k : TaskStatus.t) : list TaskStatus.t :=
  match d with
  | [] => []
  | (k', v) :: d' => if TaskStatus.eqb k' k then v else dict_get d' k
  end.

(** [x in l] *)
Definition contains (l : list TaskStatus.t) (x : TaskStatus.t) : bool :=
  existsb (TaskStatus.eqb x) l.

Definition _is_valid_status_transition (from_status to_status : TaskStatus.t)
  : bool :=
  contains (dict_get valid_transitions from_status) to_status.

Definition status_value (s : TaskStatus.t) : value :=
  VStr (of_string (TaskStatus.value s)).

Definition change_status (now : datetime) (self : t)
    (new_status : TaskStatus.t) : result t :=
  if negb (_is_valid_status_transition (status self) new_status) then
    Raise (ValueError [Lit "Invalid status transition from ";
                       Fmt (status_value (status self)); Lit " to ";
                       Fmt (status_value new_status)])
  else
    Ok (mk (title self) (task_list_id self) (id self) (description self)
           new_status (priority self) (user_id self) (created_at self) now).

Definition assign_to_user (now : datetime) (self : t) (uid : Z) : t :=
  mk (title self) (task_list_id self) (id self) (description self)
     (status self) (priority self) (Some uid) (created_at self) now.

Definition unassign_user (now : datetime) (self : t) : t :=
  mk (title self) (task_list_id self) (id self) (description self)
     (status self) (priority self) None (created_at self) now.

Definition update_title (now : datetime) (self : t)
    (new_title : TaskTitle.t) : t :=
  mk new_title (task_list_id self) (id self) (description self)
     (status self) (priority self) (user_id self) (created_at self) now.

Definition update_description (now : datetime) (self : t)
    (new_description : option str) : t :=
  mk (title self) (task_list_id self) (id self) new_description
     (status self) (priority self) (user_id self) (created_at self) now.

Definition change_priority (now : datetime) (self : t)
    (new_priority : TaskPriority.t) : t :=
  mk (title self) (task_list_id self) (id self) (description self)
     (status self) new_priority (user_id self) (created_at self) now.

Definition is_completed (self : t) : bool :=
  TaskStatus.eqb (status self) TaskStatus.completed.

Definition is_assigned (self : t) : bool :=
  match user_id self with Some _ => true | None => false end.

(** The lifecycle mutations, as one request type. *)
Inductive mutation :=
| ChangeStatus (new_status : TaskStatus.t)
| AssignToUser (uid : Z)
| UnassignUser
| UpdateTitle (new_title : TaskTitle.t)
| UpdateDescription (new_description : option str)
| ChangePriority (new_priority : TaskPriority.t).

Definition apply (now : datetime) (self : t) (m : mutation) : result t :=
  match m with
  | ChangeStatus s => change_status now self s
  | AssignToUser u => Ok (assign_to_user now self u)
  | UnassignUser => Ok (unassign_user now self)
  | UpdateTitle x => Ok (update_title now self x)
  | UpdateDescription d => Ok (update_description now self d)
  | ChangePriority p => Ok (change_priority now self p)
  end.

End Task.

(* ================================================================== *)
(** * [app/infrastructure/db]: mapped rows, session, repositories *)
(* ================================================================== *)

Module TaskListRow.
(** [class TaskList(Base)], table [task_list]. *)
Record t := mk {
  id : Z;
  name : str;
  created_at : datetime;
  updated_at : datetime
}.
End TaskListRow.

Module TaskRow.
(** [class Task(Base)], table [task]. *)
Record t := mk {
  id : Z;
  title : str;
  description : option str;
  status : TaskStatus.t;
  priority : TaskPriority.t;
  created_at : datetime;
  updated_at : datetime;
  task_list_id : Z;
  user_id : option Z
}.

Definition with_status (r : t) (s : TaskStatus.t) : t :=
  mk (id r) (title r) (description r) s (priority r) (created_at r)
     (updated_at r) (task_list_id r) (user_id r).

Definition with_updated_at (r : t) (d : datetime) : t :=
  mk (id r) (title r) (description r) (status r) (priority r) (created_at r)
     d (task_list_id r) (user_id r).
End TaskRow.

Module Orm.

Inductive table := task_list_table | task_table.

Record Database := mkDatabase {
  task_list : list TaskListRow.t;
  task : list TaskRow.t
}.

(** What a session did, in order: a [SELECT] issued by [.first()] or
    [.all()], an [INSERT] registered by [db.add], [db.commit()],
    [db.refresh(..)]. *)
Inductive event :=
| Select (t : table)
| Insert (t : table)
| Commit
| Refresh (t : table).

(** A SQLAlchemy [Session]: the committed database, the state the unit of
    work sees (rows are returned in table order), the primary keys of the
    task rows with a net change, what [datetime.now(timezone.utc)] returns
    in the column defaults, and the events so far. *)
Record Session := mkSession {
  committed : Database;
  working : Database;
  modified : list Z;
  clock : datetime;
  events : list event
}.

Definition note (e : event) (s : Session) : Session :=
  mkSession (committed s) (working s) (modified s) (clock s) (events s ++ [e]).

Definition record (e : event) : M Session unit := modify (note e).

(** ** The query builder: [db.query(C).filter(..).offset(..).limit(..)] *)
Record Query (Row : Type) := mkQuery {
  q_table : table;
  q_rows : Database -> list Row;
  q_where : list (Row -> bool);
  q_offset : nat;
  q_limit : option nat
}.

Definition query_task_list : Query TaskListRow.t :=
  mkQuery task_list_table task_list [] 0 None.

Definition query_task : Query TaskRow.t :=
  mkQuery task_table task [] 0 None.

Definition filter_ {Row} (q : Query Row) (p : Row -> bool) : Query Row :=
  mkQuery (q_table q) (q_rows q) (q_where q ++ [p]) (q_offset q) (q_limit q).

Definition offset {Row} (q : Query Row) (n : nat) : Query Row :=
  mkQuery (q_table q) (q_rows q) (q_where q) n (q_limit q).

Definition limit {Row} (q : Query Row) (n : nat) : Query Row :=
  mkQuery (q_table q) (q_rows q) (q_where q) (q_offset q) (Some n).

(** The rows a query selects from a database: the conjunction of the
    filters, then [OFFSET], then [LIMIT]. *)
Definition select {Row} (q : Query Row) (d : Database) : list Row :=
  let matching :=
    List.filter (fun r => forallb (fun p => p r) (q_where q)) (q_rows q d) in
  let skipped := skipn (q_offset q) matching in
  match q_limit q with
  | None => skipped
  | Some n => firstn n skipped
  end.

(** [.all()] *)
Definition all {Row} (q : Query Row) : M Session (list Row) :=
  (record (Select (q_table q)) ;;;
   s <- get ;;
   ret (select q (working s)))%py.

(** [.first()]: the query with [LIMIT 1], its row or [None]. *)
Definition first {Row} (q : Query Row) : M Session (option Row) :=
  (record (Select (q_table q)) ;;;
   s <- get ;;
   ret (List.hd_error (select (limit q 1) (working s))))%py.

(** The key an [INTEGER PRIMARY KEY] column receives on insert. *)
Definition next_id (ids : list Z) : Z :=
  (1 + List.fold_right Z.max 0 ids)%Z.

(** [db.add(TaskList(name=name))]: the row the flush inserts, with its
    key and the column defaults.  The key is allotted here rather than at
    the flush; every caller commits at once. *)
Definition add_task_list (name : str) : M Session Z :=
  (s <- get ;;
   let w := working s in
   let new_id := next_id (List.map TaskListRow.id (task_list w)) in
   let row := TaskListRow.mk new_id name (clock s) (clock s) in
   put (mkSession (committed s)
          (mkDatabase (task_list w ++ [row]) (task w))
          (modified s) (clock s) (events s)) ;;;
   record (Insert task_list_table) ;;;
   ret new_id)%py.

(** [task.status = status] on the mapped instance with primary key [pk]:
    the instance is the session's one object for that row.  The row has a
    net change only when the value differs. *)
Definition set_task_status (pk : Z) (s' : TaskStatus.t) : M Session unit :=
  modify (fun s =>
    let w := working s in
    let changed :=
      existsb (fun r => (TaskRow.id r =? pk)%Z
                        && negb (TaskStatus.eqb (TaskRow.status r) s'))
              (task w) in
    mkSession (committed s)
      (mkDatabase (task_list w)
         (List.map (fun r => if (TaskRow.id r =? pk)%Z
                             then TaskRow.with_status r s' else r) (task w)))
      (if changed then pk :: modified s else modified s)
      (clock s) (events s)).

(** [db.commit()]: flush (the [onupdate] of [updated_at] fires for the rows
    with a net change), then make the working state the committed one. *)
Definition commit : M Session unit :=
  (s <- get ;;
   let w := working s in
   let flushed :=
     mkDatabase (task_list w)
       (List.map (fun r =>
          if existsb (Z.eqb (TaskRow.id r)) (modified s)
          then TaskRow.with_updated_at r (clock s) else r) (task w)) in
   put (mkSession flushed flushed [] (clock s) (events s)) ;;;
   record Commit)%py.

(** [db.refresh(entity)]: the committed row with the entity's key; the
    session raises when the row is gone. *)
Definition refreshed {Row} (r : option Row) : M Session Row :=
  match r with
  | Some x => ret x
  | None => raise (Exception [Lit "Could not refresh instance"])
  end.

Definition refresh_task_list (pk : Z) : M Session TaskListRow.t :=
  (record (Refresh task_list_table) ;;;
   s <- get ;;
   refreshed (List.find (fun r => (TaskListRow.id r =? pk)%Z)
                        (task_list (committed s))))%py.

Definition refresh_task (pk : Z) : M Session TaskRow.t :=
  (record (Refresh task_table) ;;;
   s <- get ;;
   refreshed (List.find (fun r => (TaskRow.id r =? pk)%Z)
                        (task (committed s))))%py.

(** The two classes the code calls [Task]: the mapped class of
    [app/infrastructure/db/models] and the dataclass of
    [app/domain/models], which is not mapped. *)
Inductive task_class := mapped_task | domain_task.

(** [db.query(C)]: a query on the table of a mapped class; any other class
    is refused with [sqlalchemy.exc.ArgumentError], before any statement is
    issued. *)
Definition query (c : task_class) : M Session (Query TaskRow.t) :=
  match c with
  | mapped_task => ret query_task
  | domain_task =>
      raise (Exception
               [Lit "ArgumentError: Column expression, FROM clause, or other columns clause element expected, got <class 'app.domain.models.task.Task'>."])
  end.

End Orm.

(** ** [app/infrastructure/db/repositories.py] *)

Module TaskListRepository.
Import Orm.

(** [BaseRepository.get_by_id] *)
Definition get_by_id (entity_id : Z) : M Session (option TaskListRow.t) :=
  first (filter_ query_task_list
           (fun r => (TaskListRow.id r =? entity_id)%Z)).

Definition get_by_name (name : str) : M Session (option TaskListRow.t) :=
  first (filter_ query_task_list
           (fun r => str_eqb (TaskListRow.name r) name)).

(** [BaseRepository.create]: [add], [commit], [refresh], return the
    entity. *)
Definition create (name : str) : M Session TaskListRow.t :=
  (pk <- add_task_list name ;;
   commit ;;;
   refresh_task_list pk)%py.

End TaskListRepository.

Module TaskRepository.
Import Orm.

(** The defaults of the [skip] and [limit] parameters. *)
Definition default_skip : nat := 0.
Definition default_limit : nat := 100.

Definition get_by_id (entity_id : Z) : M Session (option TaskRow.t) :=
  first (filter_ query_task (fun r => (TaskRow.id r =? entity_id)%Z)).

Definition get_by_task_list_id (task_list_id : Z) (skip limit_ : nat)
  : M Session (list TaskRow.t) :=
  all (limit (offset
         (filter_ query_task
            (fun r => (TaskRow.task_list_id r =? task_list_id)%Z))
         skip) limit_).

(** [query.filter(c)] when the optional argument is not [None]. *)
Definition filter_if {A} (q : Query TaskRow.t) (o : option A)
    (p : A -> TaskRow.t -> bool) : Query TaskRow.t :=
  match o with
  | Some a => filter_ q (p a)
  | None => q
  end.

Definition get_tasks_with_filters
    (task_list_id user_id : option Z) (status : option TaskStatus.t)
    (priority : option TaskPriority.t) (skip limit_ : nat)
  : M Session (list TaskRow.t) :=
  let query := query_task in
  let query := filter_if query task_list_id
                 (fun v r => (TaskRow.task_list_id r =? v)%Z) in
  let query := filter_if query user_id
                 (fun v r => match TaskRow.user_id r with
                             | Some u => (u =? v)%Z
                             | None => false
                             end) in
  let query := filter_if query status
                 (fun v r => TaskStatus.eqb (TaskRow.status r) v) in
  let query := filter_if query priority
                 (fun v r => TaskPriority.eqb (TaskRow.priority r) v) in
  all (limit (offset query skip) limit_).

End TaskRepository.

(* ================================================================== *)
(** * [app/use_cases] *)
(* ================================================================== *)

Module Pagination.
Record t := mk { skip : nat; limit : nat; returned : nat }.
End Pagination.

(** The dictionary [list_tasks] returns. *)
Module TaskListing.
Record t := mk {
  tasks : list TaskRow.t;
  total : nat;
  completed : nat;
  percent_complete : Q;
  pagination : Pagination.t
}.
End TaskListing.

(** [round(x, 2)]: to the nearest hundredth, ties to the even one. *)
Definition round2 (x : Q) : Q :=
  (inject_Z (round_half_even (x * 100)) / 100)%Q.

Module UseCases.
Import Orm.

(** [app/use_cases/task/list_tasks.py] *)
Definition list_tasks (task_list_id : Z)
    (status : option TaskStatus.t) (priority : option TaskPriority.t)
    (user_id : option Z) (skip limit_ : nat) : M Session TaskListing.t :=
  (task_list <- TaskListRepository.get_by_id task_list_id ;;
   match task_list with
   | None =>
       raise (NotFoundException [Lit "Task list with id ";
                                 Fmt (VInt task_list_id); Lit " not found"])
   | Some _ =>
       tasks <- TaskRepository.get_tasks_with_filters
                  (Some task_list_id) user_id status priority skip limit_ ;;
       all_tasks <- TaskRepository.get_by_task_list_id task_list_id
                      TaskRepository.default_skip
                      TaskRepository.default_limit ;;
       let total := List.length all_tasks in
       let completed :=
         List.length
           (List.filter (fun t => TaskStatus.eqb (TaskRow.status t)
                                                 TaskStatus.completed)
                        all_tasks) in
       let percent_complete :=
         match total with
         | O => 0%Q
         | _ => ((inject_Z (Z.of_nat completed)
                  / inject_Z (Z.of_nat total)) * 100)%Q
         end in
       ret (TaskListing.mk tasks total completed (round2 percent_complete)
              (Pagination.mk skip limit_ (List.length tasks)))
   end)%py.

(** [list_all_tasks] *)
Definition list_all_tasks
    (status : option TaskStatus.t) (priority : option TaskPriority.t)
    (user_id : option Z) (skip limit_ : nat) : M Session (list TaskRow.t) :=
  TaskRepository.get_tasks_with_filters None user_id status priority
    skip limit_.

(** [app/use_cases/task_list/create_task_list.py] *)
Definition create_task_list (name : str) : M Session TaskListRow.t :=
  (existing <- TaskListRepository.get_by_name name ;;
   match existing with
   | Some _ =>
       raise (ConflictException [Lit "Task list with name '";
                                 Fmt (VStr name); Lit "' already exists"])
   | None => TaskListRepository.create name
   end)%py.

(** [app/use_cases/task/change_task_status.py].  The module imports
    [Task] from [app.domain.models.task]: [db.query(Task)] names the
    dataclass, and [Task.id], the default of the field, is [None], so that
    [Task.id == task_id] is [False]. *)
Definition change_task_status (task_id : Z) (status : TaskStatus.t)
  : M Session (option TaskRow.t) :=
  (q <- query domain_task ;;
   task <- first (filter_ q (fun _ => false)) ;;
   match task with
   | Some t =>
       set_task_status (TaskRow.id t) status ;;;
       commit ;;;
       t' <- refresh_task (TaskRow.id t) ;;
       ret (Some t')
   | None => ret None
   end)%py.

End UseCases.

(* ================================================================== *)
(** * [app/services/notification.py] *)
(* ================================================================== *)

Module Notification.

(** Reading an attribute of a mapped instance is a computation that may
    raise (the unit tests make [task.title] raise "Database error"). *)
Definition attr := result value.

Module TaskObj.
Record t := mk {
  id : attr;
  title : attr;
  description : attr;
  status : attr;
  priority : attr
}.
End TaskObj.

Module UserObj.
Record t := mk { name : attr; email : attr }.
End UserObj.

Inductive level := DEBUG | INFO | ERROR.

(** The records the module's [logger] has received. *)
Definition Logger := list (level * message).

Definition log (lv : level) (m : message) : M Logger unit :=
  modify (fun l => l ++ [(lv, m)]).

Definition getattr (a : attr) : M Logger value := lift a.

(** [a or b]: [b] is evaluated only when [a] is false. *)
Definition or_else (a b : M Logger value) : M Logger value :=
  (x <- a ;; if truthy x then ret x else b)%py.

Definition no_description : M Logger value :=
  ret (VStr (of_string "No description provided")).

(** The literal text of the e-mail bodies is kept without its layout. *)

(** The [try] block of [send_task_assignment_notification]. *)
Definition assignment_body (task : TaskObj.t) (assigned_user : UserObj.t)
  : M Logger bool :=
  (title0 <- getattr (TaskObj.title task) ;;
   let subject := [Lit "New Task Assigned: "; Fmt title0] in
   who <- or_else (getattr (UserObj.name assigned_user))
                  (getattr (UserObj.email assigned_user)) ;;
   title1 <- getattr (TaskObj.title task) ;;
   descr <- or_else (getattr (TaskObj.description task)) no_description ;;
   st <- getattr (TaskObj.status task) ;;
   pr <- getattr (TaskObj.priority task) ;;
   let body :=
     [Lit "Hello "; Fmt who;
      Lit ", You have been assigned a new task: Title: "; Fmt title1;
      Lit " Description: "; Fmt descr;
      Lit " Status: "; Fmt st; Lit " Priority: "; Fmt pr;
      Lit " Please log in to the task management system to view more details. Best regards, Task Management System"] in
   to <- getattr (UserObj.email assigned_user) ;;
   tid <- getattr (TaskObj.id task) ;;
   log INFO ([Lit "MOCK EMAIL SENT - To: "; Fmt to; Lit ", Subject: "]
             ++ subject ++ [Lit ", Task ID: "; Fmt tid]) ;;;
   log DEBUG (Lit "Email body: " :: body) ;;;
   ret true)%py.

Definition send_task_assignment_notification
    (task : TaskObj.t) (assigned_user : UserObj.t) : M Logger bool :=
  try_except (assignment_body task assigned_user)
    (fun e =>
       (log ERROR (Lit "Failed to send task assignment notification: "
                   :: exn_message e) ;;;
        ret false)%py).

(** The [try] block of [send_task_unassignment_notification]. *)
Definition unassignment_body (task : TaskObj.t) (unassigned_user : UserObj.t)
  : M Logger bool :=
  (title0 <- getattr (TaskObj.title task) ;;
   let subject := [Lit "Task Unassigned: "; Fmt title0] in
   who <- or_else (getattr (UserObj.name unassigned_user))
                  (getattr (UserObj.email unassigned_user)) ;;
   title1 <- getattr (TaskObj.title task) ;;
   descr <- or_else (getattr (TaskObj.description task)) no_description ;;
   let body :=
     [Lit "Hello "; Fmt who;
      Lit ", The following task has been unassigned from you: Title: ";
      Fmt title1; Lit " Description: "; Fmt descr;
      Lit " If you have any questions, please contact your project manager. Best regards, Task Management System"] in
   to <- getattr (UserObj.email unassigned_user) ;;
   tid <- getattr (TaskObj.id task) ;;
   log INFO ([Lit "MOCK EMAIL SENT - To: "; Fmt to; Lit ", Subject: "]
             ++ subject ++ [Lit ", Task ID: "; Fmt tid]) ;;;
   log DEBUG (Lit "Email body: " :: body) ;;;
   ret true)%py.

Definition send_task_unassignment_notification
    (task : TaskObj.t) (unassigned_user : UserObj.t) : M Logger bool :=
  try_except (unassignment_body task unassigned_user)
    (fun e =>
       (log ERROR (Lit "Failed to send task unassignment notification: "
                   :: exn_message e) ;;;
        ret false)%py).

(** The [try] block of [send_task_status_change_notification]. *)
Definition status_change_body (task : TaskObj.t) (old_status : str)
    (assigned_user : UserObj.t) : M Logger bool :=
  (title0 <- getattr (TaskObj.title task) ;;
   let subject := [Lit "Task Status Updated: "; Fmt title0] in
   who <- or_else (getattr (UserObj.name assigned_user))
                  (getattr (UserObj.email assigned_user)) ;;
   title1 <- getattr (TaskObj.title task) ;;
   st <- getattr (TaskObj.status task) ;;
   let body :=
     [Lit "Hello "; Fmt who;
      Lit ", The status of your assigned task has been updated: Title: ";
      Fmt title1; Lit " Previous Status: "; Fmt (VStr old_status);
      Lit " New Status: "; Fmt st;
      Lit " Please log in to the task management system to view more details. Best regards, Task Management System"] in
   to <- getattr (UserObj.email assigned_user) ;;
   tid <- getattr (TaskObj.id task) ;;
   st' <- getattr (TaskObj.status task) ;;
   log INFO ([Lit "MOCK EMAIL SENT - To: "; Fmt to; Lit ", Subject: "]
             ++ subject
             ++ [Lit ", Task ID: "; Fmt tid; Lit ", Status: ";
                 Fmt (VStr old_status); Lit " -> "; Fmt st']) ;;;
   log DEBUG (Lit "Email body: " :: body) ;;;
   ret true)%py.

(** The guard [if not assigned_user] and its debug record stand before the
    [try]. *)
Definition send_task_status_change_notification
    (task : TaskObj.t) (old_status : str)
    (assigned_user : option UserObj.t) : M Logger bool :=
  match assigned_user with
  | None =>
      (tid <- getattr (TaskObj.id task) ;;
       log DEBUG [Lit "No user assigned to task "; Fmt tid;
                  Lit ", skipping notification"] ;;;
       ret true)%py
  | Some user =>
      try_except (status_change_body task old_status user)
        (fun e =>
           (log ERROR
              (Lit "Failed to send task status change notification: "
               :: exn_message e) ;;;
            ret false)%py)
  end.

(** An e-mail was "sent" when an [INFO] record was written. *)
Definition emails (l : Logger) : list message :=
  List.map snd (List.filter (fun r => match fst r with
                                      | INFO => true
                                      | _ => false
                                      end) l).

End Notification.

(* ================================================================== *)
(** * The specification's own wording, for comparison with the code *)
(* ================================================================== *)

Module Spec.

(** Section 4.2: pending -> {in_progress, completed},
    in_progress -> {pending, completed},
    completed -> {pending, in_progress}. *)
Definition successors (from : TaskStatus.t) : list TaskStatus.t :=
  match from with
  | TaskStatus.pending => [TaskStatus.in_progress; TaskStatus.completed]
  | TaskStatus.in_progress => [TaskStatus.pending; TaskStatus.completed]
  | TaskStatus.completed => [TaskStatus.pending; TaskStatus.in_progress]
  end.

End Spec.

(** Sample data used in the examples below. *)
Definition fix_bug : TaskTitle.t := TaskTitle.mk (of_string "Fix bug").

Definition space : codepoint := 32%N.
Definition letter_x : codepoint := 120%N.

(** ["x" * n + " "] *)
Definition padded (n : nat) : str := repeat_char letter_x n ++ [space].

(** What the two string constructors share: a length-constrained field
    followed by a validator that rejects a string empty after stripping. *)
Definition stripped_field (hi : nat) (what : string) (s : str) : result str :=
  rbind (str_field 1 hi s) (fun v1 =>
    as_validation_error
      (match strip v1 with
       | [] => Raise (ValueError [Lit what])
       | _ => Ok (strip v1)
       end)).

(** A task list "Sprint 1" with key 1, and sessions over it. *)
Definition sprint_1 : TaskListRow.t :=
  TaskListRow.mk 1 (of_string "Sprint 1") 0 0.

Definition task_row (pk : Z) (status : TaskStatus.t) : TaskRow.t :=
  TaskRow.mk pk (of_string "Fix bug") None status TaskPriority.medium 0 0 1 None.

Definition session_of (d : Orm.Database) : Orm.Session :=
  Orm.mkSession d d [] 0 [].

(** No task list, no task. *)
Definition empty_session : Orm.Session :=
  session_of (Orm.mkDatabase [] []).

(** The list of section 8: two completed and two pending tasks. *)
Definition four_tasks : Orm.Session :=
  session_of (Orm.mkDatabase [sprint_1]
    [ task_row 1 TaskStatus.completed; task_row 2 TaskStatus.pending;
      task_row 3 TaskStatus.completed; task_row 4 TaskStatus.pending ]).

(** A list of [n] pending tasks with keys 1 .. n. *)
Definition crowded (n : nat) : Orm.Session :=
  session_of (Orm.mkDatabase [sprint_1]
    (List.map (fun i => task_row (Z.of_nat i) TaskStatus.pending)
              (List.seq 1 n))).

(** The tasks of a list, all of them, in a database. *)
Definition tasks_of_list (task_list_id : Z) (d : Orm.Database)
  : list TaskRow.t :=
  List.filter (fun r => (TaskRow.task_list_id r =? task_list_id)%Z)
              (Orm.task d).

Definition is_completed_row (r : TaskRow.t) : bool :=
  TaskStatus.eqb (TaskRow.status r) TaskStatus.completed.

(** Mapped instances as the notifier sees them: every attribute readable. *)
Definition task_obj (pk : Z) : Notification.TaskObj.t :=
  Notification.TaskObj.mk (Ok (VInt pk)) (Ok (VStr (of_string "Fix bug")))
    (Ok VNone) (Ok (VStr (of_string "completed")))
    (Ok (VStr (of_string "medium"))).

(** A task whose key cannot be read, built as the unit tests build the one
    whose title cannot be read. *)
Definition detached_task : Notification.TaskObj.t :=
  Notification.TaskObj.mk (Raise (Exception [Lit "Database error"]))
    (Ok (VStr (of_string "Fix bug"))) (Ok VNone)
    (Ok (VStr (of_string "completed"))) (Ok (VStr (of_string "medium"))).

Definition user_obj : Notification.UserObj.t :=
  Notification.UserObj.mk (Ok VNone) (Ok (VStr (of_string "user@example.com"))).

(* ================================================================== *)
(** * Further code of the same files *)
(* ================================================================== *)

(** ** [app/domain/models/task_list.py] *)

Module TaskList.

(** The dataclass; the timestamps are never [None] once [__post_init__]
    has run. *)
Record t := mk {
  name : TaskListName.t;
  id : option Z;
  created_at : datetime;
  updated_at : datetime
}.

(** [TaskList(...)]: [__init__] followed by [__post_init__]. *)
Definition init (now : datetime) (name : TaskListName.t) (id : option Z)
    (created_at updated_at : option datetime) : t :=
  let created := match created_at with None => now | Some c => c end in
  let updated := match updated_at with None => created | Some u => u end in
  mk name id created updated.

Definition update_name (now : datetime) (self : t) (new_name : TaskListName.t)
  : t :=
  mk new_name (id self) (created_at self) now.

Definition calculate_completion_percentage (self : t)
    (total_tasks completed_tasks : Z) : result CompletionPercentage.t :=
  CompletionPercentage.calculate_from_tasks total_tasks completed_tasks.

Definition is_empty (self : t) (task_count : Z) : bool :=
  (task_count =? 0)%Z.

Definition is_fully_completed (self : t) (total_tasks completed_tasks : Z)
  : bool :=
  if (total_tasks =? 0)%Z then false
  else (completed_tasks =? total_tasks)%Z.

End TaskList.

(** ** [app/domain/models/user.py] *)

(** The e-mail value object as the [User] entity holds it; [str(email)] is
    its [value]. *)
Module UserEmail.
Record t := mk { value : str }.
End UserEmail.

Module User.

Record t := mk {
  email : UserEmail.t;
  name : option str;
  id : option Z;
  created_at : datetime;
  updated_at : datetime
}.

Definition init (now : datetime) (email : UserEmail.t) (name : option str)
    (id : option Z) (created_at updated_at : option datetime) : t :=
  let created := match created_at with None => now | Some c => c end in
  let updated := match updated_at with None => created | Some u => u end in
  mk email name id created updated.

Definition update_name (now : datetime) (self : t) (new_name : option str) : t :=
  mk (email self) new_name (id self) (created_at self) now.

Definition update_email (now : datetime) (self : t) (new_email : UserEmail.t)
  : t :=
  mk new_email (name self) (id self) (created_at self) now.

(** [self.name is not None and self.name.strip() != ""] *)
Definition has_name (self : t) : bool :=
  match name self with
  | None => false
  | Some n => negb (str_eqb (strip n) [])
  end.

Definition get_display_name (self : t) : str :=
  if has_name self then
    match name self with
    | Some n => n
    | None => UserEmail.value (email self)   (* not reached *)
    end
  else UserEmail.value (email self).

End User.

(** ** [app/infrastructure/db/repositories.py], the other queries *)

(** The methods of [TaskRepository] besides those of the listing. *)
Module TaskQueries.
Import Orm.

(** [BaseRepository.get_all] *)
Definition get_all (skip limit_ : nat) : M Session (list TaskRow.t) :=
  all (limit (offset query_task skip) limit_).

Definition get_by_user_id (user_id : Z) (skip limit_ : nat)
  : M Session (list TaskRow.t) :=
  all (limit (offset
         (filter_ query_task
            (fun r => match TaskRow.user_id r with
                      | Some u => (u =? user_id)%Z
                      | None => false
                      end))
         skip) limit_).

Definition get_by_status (status : TaskStatus.t) (skip limit_ : nat)
  : M Session (list TaskRow.t) :=
  all (limit (offset
         (filter_ query_task
            (fun r => TaskStatus.eqb (TaskRow.status r) status))
         skip) limit_).

Definition get_by_priority (priority : TaskPriority.t) (skip limit_ : nat)
  : M Session (list TaskRow.t) :=
  all (limit (offset
         (filter_ query_task
            (fun r => TaskPriority.eqb (TaskRow.priority r) priority))
         skip) limit_).

End TaskQueries.

Module TaskListQueries.
Import Orm.

(** [BaseRepository.get_all] on task lists. *)
Definition get_all (skip limit_ : nat) : M Session (list TaskListRow.t) :=
  all (limit (offset query_task_list skip) limit_).

End TaskListQueries.

(** ** Writes of the session besides those above

    Foreign keys are not enforced by the database (the SQLite default of
    the test database).  The event log has no entry for a [DELETE]. *)
Module OrmWrites.
Import Orm.

(** [db.add(Task(title=.., description=.., task_list_id=.., priority=..,
    user_id=.., status=..))]: the row the flush inserts, with its key and
    the column defaults; the key is allotted here, every caller commits at
    once. *)
Definition add_task (title : str) (description : option str)
    (task_list_id : Z) (priority : TaskPriority.t) (user_id : option Z)
    (status : TaskStatus.t) : M Session Z :=
  (s <- get ;;
   let w := working s in
   let new_id := next_id (List.map TaskRow.id (task w)) in
   let row := TaskRow.mk new_id title description status priority
                (clock s) (clock s) task_list_id user_id in
   put (mkSession (committed s)
          (mkDatabase (task_list w) (task w ++ [row]))
          (modified s) (clock s) (events s)) ;;;
   record (Insert task_table) ;;;
   ret new_id)%py.

(** [db.delete(task)] on the instance with key [pk]. *)
Definition delete_task (pk : Z) : M Session unit :=
  modify (fun s =>
    let w := working s in
    mkSession (committed s)
      (mkDatabase (task_list w)
         (List.filter (fun r => negb (TaskRow.id r =? pk)%Z) (task w)))
      (modified s) (clock s) (events s)).

(** [db.delete(task_list)] on the instance with key [pk]: the relationship
    [tasks] is declared with [cascade="all, delete-orphan"], so the tasks of
    the list are deleted with it. *)
Definition delete_task_list (pk : Z) : M Session unit :=
  modify (fun s =>
    let w := working s in
    mkSession (committed s)
      (mkDatabase
         (List.filter (fun r => negb (TaskListRow.id r =? pk)%Z) (task_list w))
         (List.filter (fun r => negb (TaskRow.task_list_id r =? pk)%Z)
                      (task w)))
      (modified s) (clock s) (events s)).

(** [task_list.name = name] on the instance with key [pk].  A row whose
    name changes receives the [onupdate] stamp of [updated_at] at the flush;
    it is applied here, every caller commits at once. *)
Definition set_task_list_name (pk : Z) (name : str) : M Session unit :=
  modify (fun s =>
    let w := working s in
    mkSession (committed s)
      (mkDatabase
         (List.map (fun r =>
            if (TaskListRow.id r =? pk)%Z then
              if str_eqb (TaskListRow.name r) name then r
              else TaskListRow.mk (TaskListRow.id r) name
                     (TaskListRow.created_at r) (clock s)
            else r) (task_list w))
         (task w))
      (modified s) (clock s) (events s)).

End OrmWrites.

(** [BaseRepository.create] and [BaseRepository.delete] on tasks. *)
Module TaskWrites.
Import Orm.

Definition create (title : str) (description : option str)
    (task_list_id : Z) (priority : TaskPriority.t) (user_id : option Z)
    (status : TaskStatus.t) : M Session TaskRow.t :=
  (pk <- OrmWrites.add_task title description task_list_id priority user_id
           status ;;
   commit ;;;
   refresh_task pk)%py.

Definition delete (entity_id : Z) : M Session bool :=
  (entity <- TaskRepository.get_by_id entity_id ;;
   match entity with
   | Some e =>
       OrmWrites.delete_task (TaskRow.id e) ;;;
       commit ;;;
       ret true
   | None => ret false
   end)%py.

End TaskWrites.

(** [BaseRepository.delete] on task lists. *)
Module TaskListWrites.
Import Orm.

Definition delete (entity_id : Z) : M Session bool :=
  (entity <- TaskListRepository.get_by_id entity_id ;;
   match entity with
   | Some e =>
       OrmWrites.delete_task_list (TaskListRow.id e) ;;;
       commit ;;;
       ret true
   | None => ret false
   end)%py.

End TaskListWrites.

(** ** [app/use_cases/task]: [get_task], [create_task] *)

Module TaskUseCases.
Import Orm.

Definition get_task (task_id : Z) : M Session TaskRow.t :=
  (task <- TaskRepository.get_by_id task_id ;;
   match task with
   | None =>
       raise (NotFoundException [Lit "Task with id "; Fmt (VInt task_id);
                                 Lit " not found"])
   | Some t => ret t
   end)%py.

Definition get_task_optional (task_id : Z) : M Session (option TaskRow.t) :=
  TaskRepository.get_by_id task_id.

(** The Python defaults are [description=None], [priority=medium],
    [user_id=None]. *)
Definition create_task (task_list_id : Z) (title : str)
    (description : option str) (priority : TaskPriority.t)
    (user_id : option Z) : M Session TaskRow.t :=
  (task_list <- TaskListRepository.get_by_id task_list_id ;;
   match task_list with
   | None =>
       raise (NotFoundException [Lit "Task list with id ";
                                 Fmt (VInt task_list_id); Lit " not found"])
   | Some _ =>
       TaskWrites.create title description task_list_id priority user_id
         TaskStatus.pending
   end)%py.

End TaskUseCases.

(** ** [app/api/v1/endpoints]

    An endpoint returns its value, as it stands before the framework
    serialises it, or raises [HTTPException(status_code, detail)]; [detail]
    is [str(e)] of the exception it translates. *)
Inductive response (A : Type) :=
| Returned (a : A)
| HTTPException (status_code : Z) (detail : message).
Arguments Returned {A} a.
Arguments HTTPException {A} status_code detail.

Module TaskListEndpoints.
Import Orm.

(** The [except] clauses of the task-list endpoints that catch both
    exceptions, in their order: [NotFoundException] gives 404,
    [ConflictException] 409, any other [Exception] 500. *)
Definition translate (e : exn) : Z :=
  match e with
  | NotFoundException _ => 404
  | ConflictException _ => 409
  | _ => 500
  end.

Definition endpoint {A} (body : M Session A) : Session -> response A * Session :=
  fun s => match body s with
           | (Ok a, s') => (Returned a, s')
           | (Raise e, s') => (HTTPException (translate e) (exn_message e), s')
           end.

Definition not_found (task_list_id : Z) : exn :=
  NotFoundException [Lit "Task list with id "; Fmt (VInt task_list_id);
                     Lit " not found"].

(** [update_task_list_endpoint]; [name] is [task_list_update.name]. *)
Definition update_task_list_endpoint (task_list_id : Z) (name : option str)
  : Session -> response TaskListRow.t * Session :=
  endpoint
    (task_list <- TaskListRepository.get_by_id task_list_id ;;
     match task_list with
     | None => raise (not_found task_list_id)
     | Some tl =>
         match name with
         | Some new_name =>
             existing <- TaskListRepository.get_by_name new_name ;;
             match existing with
             | Some e =>
                 if negb (TaskListRow.id e =? task_list_id)%Z then
                   raise (ConflictException
                            [Lit "Task list with name '"; Fmt (VStr new_name);
                             Lit "' already exists"])
                 else OrmWrites.set_task_list_name (TaskListRow.id tl) new_name
             | None => OrmWrites.set_task_list_name (TaskListRow.id tl) new_name
             end
         | None => ret tt
         end ;;;
         commit ;;;
         refresh_task_list (TaskListRow.id tl)
     end)%py.

(** [delete_task_list_endpoint]; the returned dictionary is its message. *)
Definition delete_task_list_endpoint (task_list_id : Z)
  : Session -> response string * Session :=
  endpoint
    (task_list <- TaskListRepository.get_by_id task_list_id ;;
     match task_list with
     | None => raise (not_found task_list_id)
     | Some tl =>
         OrmWrites.delete_task_list (TaskListRow.id tl) ;;;
         commit ;;;
         ret "Task list deleted successfully"%string
     end)%py.

End TaskListEndpoints.

Module TaskEndpoints.
Import Orm.

(** The [except] clauses of the task endpoints: [NotFoundException] gives
    404, any other [Exception] 500. *)
Definition translate (e : exn) : Z :=
  match e with
  | NotFoundException _ => 404
  | _ => 500
  end.

Definition endpoint {A} (body : M Session A) : Session -> response A * Session :=
  fun s => match body s with
           | (Ok a, s') => (Returned a, s')
           | (Raise e, s') => (HTTPException (translate e) (exn_message e), s')
           end.

(** [convert_optional_domain_to_db_status] and its sibling: every member of
    the enumerations is a non-empty string, hence true. *)
Definition convert_optional {A} (o : option A) : option A := o.

(** [list_tasks_endpoint]; [skip >= 0] and [1 <= limit <= 1000] are checked
    before the body runs.  [if task_list_id:] is false for [None] and for 0. *)
Definition list_tasks_endpoint (task_list_id : option Z)
    (status : option TaskStatus.t) (priority : option TaskPriority.t)
    (user_id : option Z) (skip limit_ : nat)
  : Session -> response (list TaskRow.t) * Session :=
  endpoint
    (match task_list_id with
     | Some tl =>
         if negb (tl =? 0)%Z then
           (result <- UseCases.list_tasks tl (convert_optional status)
                        (convert_optional priority) user_id skip limit_ ;;
            ret (TaskListing.tasks result))%py
         else
           UseCases.list_all_tasks (convert_optional status)
             (convert_optional priority) user_id skip limit_
     | None =>
         UseCases.list_all_tasks (convert_optional status)
           (convert_optional priority) user_id skip limit_
     end).

(** [delete_task_endpoint] *)
Definition delete_task_endpoint (task_id : Z)
  : Session -> response string * Session :=
  endpoint
    (task <- TaskUseCases.get_task task_id ;;
     OrmWrites.delete_task (TaskRow.id task) ;;;
     commit ;;;
     ret "Task deleted successfully"%string)%py.

End TaskEndpoints.

(** ** Auxiliary definitions for the statements below *)

(** A row passes the optional criteria of [get_tasks_with_filters]. *)
Definition row_matches (task_list_id user_id : option Z)
    (status : option TaskStatus.t) (priority : option TaskPriority.t)
    (r : TaskRow.t) : bool :=
  match task_list_id with
  | Some v => (TaskRow.task_list_id r =? v)%Z
  | None => true
  end
  && match user_id with
     | Some v => match TaskRow.user_id r with
                 | Some u => (u =? v)%Z
                 | None => false
                 end
     | None => true
     end
  && match status with
     | Some v => TaskStatus.eqb (TaskRow.status r) v
     | None => true
     end
  && match priority with
     | Some v => TaskPriority.eqb (TaskRow.priority r) v
     | None => true
     end.

(** The shape of a stored value: not empty, at most [hi] characters, no
    white space at either end. *)
Definition trimmed (hi : nat) (v : str) : Prop :=
  (1 <= List.length v <= hi)%nat
  /\ (forall c r, v = c :: r -> isspace c = false)
  /\ (forall r c, v = r ++ [c] -> isspace c = false).

(** One e-mail when the result is [True], none when it is [False]. *)
Definition sends_iff_true (run : result bool * Notification.Logger)
    (l : Notification.Logger) : Prop :=
  exists b sent,
    fst run = Ok b
    /\ Notification.emails (snd run) = Notification.emails l ++ sent
    /\ List.length sent = (if b then 1 else 0)%nat.

(** The session with the same database and no more. *)
Definition same_database (s s' : Orm.Session) : Prop :=
  Orm.working s' = Orm.working s /\ Orm.committed s' = Orm.committed s.

(** No two task lists bear the same name, nor the same key. *)
Definition unique_names (d : Orm.Database) : Prop :=
  NoDup (List.map TaskListRow.name (Orm.task_list d)).

Definition unique_keys (d : Orm.Database) : Prop :=
  NoDup (List.map TaskListRow.id (Orm.task_list d)).

(** Two lists and three tasks, for the examples. *)
Definition backlog : TaskListRow.t :=
  TaskListRow.mk 2 (of_string "Backlog") 0 0.

Definition two_lists : Orm.Session :=
  session_of (Orm.mkDatabase [sprint_1; backlog]
    [ task_row 1 TaskStatus.completed; task_row 2 TaskStatus.pending;
      TaskRow.mk 3 (of_string "Plan") None TaskStatus.pending
        TaskPriority.high 0 0 2 (Some 7%Z) ]).

(* ================================================================== *)
(** * Properties of the value objects *)
(* ================================================================== *)

Section Strings.

Lemma strip_nil : strip [] = [].
Proof. reflexivity. Qed.

Lemma length_zero_strip (s : str) : List.length s = 0%nat -> strip s = [].
Proof.
  destruct s as [|c r]; [reflexivity | discriminate].
Qed.

Lemma str_field_ok (lo hi : nat) (s : str) :
  (lo <= List.length s <= hi)%nat -> str_field lo hi s = Ok s.
Proof.
  intros [Hlo Hhi]. unfold str_field.
  destruct (Nat.ltb_spec (List.length s) lo); [lia|].
  destruct (Nat.ltb_spec hi (List.length s)); [lia|].
  reflexivity.
Qed.

Lemma str_field_too_long (lo hi : nat) (s : str) :
  (hi < List.length s)%nat ->
  exists m, str_field lo hi s = Raise (ValidationError m).
Proof.
  intros H. unfold str_field.
  destruct (Nat.ltb_spec (List.length s) lo); [eauto|].
  destruct (Nat.ltb_spec hi (List.length s)); [eauto | lia].
Qed.

Lemma str_field_too_short (lo hi : nat) (s : str) :
  (List.length s < lo)%nat ->
  exists m, str_field lo hi s = Raise (ValidationError m).
Proof.
  intros H. unfold str_field.
  destruct (Nat.ltb_spec (List.length s) lo); [eauto | lia].
Qed.

Lemma stripped_field_spec (hi : nat) (what : string) (s : str) :
  ((exists m, stripped_field hi what s = Raise (ValidationError m))
     <-> (strip s = [] \/ (hi < List.length s)%nat))
  /\ (~ (strip s = [] \/ (hi < List.length s)%nat) ->
      stripped_field hi what s = Ok (strip s))
  /\ (forall e, stripped_field hi what s = Raise e ->
      exists m, e = ValidationError m).
Proof.
  unfold stripped_field.
  destruct (Nat.eq_dec (List.length s) 0) as [Hz|Hnz].
  - pose proof (length_zero_strip s Hz) as Hs.
    destruct (@str_field_too_short 1 hi s ltac:(lia)) as [m Hm].
    rewrite Hm; cbn. repeat split.
    + intros _. now left.
    + intros _. eauto.
    + intros H. exfalso. apply H. now left.
    + intros e He. inversion He; subst. eauto.
  - destruct (Nat.ltb_spec hi (List.length s)) as [Hlong|Hfit].
    + destruct (@str_field_too_long 1 hi s Hlong) as [m Hm].
      rewrite Hm; cbn. repeat split.
      * intros _. now right.
      * intros _. eauto.
      * intros H. exfalso. apply H. now right.
      * intros e He. inversion He; subst. eauto.
    + rewrite str_field_ok by lia. cbn.
      destruct (strip s) as [|c r] eqn:Hs; cbn.
      * repeat split.
        -- intros _. now left.
        -- intros _. eauto.
        -- intros H. exfalso. apply H. now left.
        -- intros e He. inversion He; subst. eauto.
      * repeat split.
        -- intros [m Hm]. discriminate.
        -- intros [H|H]; [discriminate | lia].
        -- intros e He. discriminate.
Qed.

Lemma stripped_field_value (hi : nat) (what : string) (s v : str) :
  stripped_field hi what s = Ok v -> v = strip s.
Proof.
  unfold stripped_field, str_field.
  destruct (List.length s <? 1)%nat; [discriminate|].
  destruct (hi <? List.length s)%nat; [discriminate|]. cbn.
  destruct (strip s); cbn; [discriminate|].
  intros H. inversion H. reflexivity.
Qed.

Lemma TaskTitle_init_stripped (s : str) :
  TaskTitle.init s
  = rbind (stripped_field 200 "Title cannot be empty" s)
          (fun v => Ok (TaskTitle.mk v)).
Proof.
  unfold TaskTitle.init, stripped_field, TaskTitle.validate_title,
    TaskTitle.min_length, TaskTitle.max_length.
  destruct (str_field 1 200 s) as [v|e]; cbn; [|reflexivity].
  destruct (strip v); reflexivity.
Qed.

Lemma TaskListName_init_stripped (s : str) :
  TaskListName.init s
  = rbind (stripped_field 100 "Name cannot be empty" s)
          (fun v => Ok (TaskListName.mk v)).
Proof.
  unfold TaskListName.init, stripped_field, TaskListName.validate_name,
    TaskListName.min_length, TaskListName.max_length.
  destruct (str_field 1 100 s) as [v|e]; cbn; [|reflexivity].
  destruct (strip v); reflexivity.
Qed.

End Strings.

(** C4 (as the code has it).  Constructing a [TaskTitle] (max 200) or a
    [TaskListName] (max 100) from a string [s] fails with [ValidationError]
    if and only if [s] is empty after stripping or the string as given,
    before stripping, is longer than the max; in every other case, among
    them a given string of exactly the max length that is not all white
    space, construction succeeds and the stored value is the stripped
    string. *)
Theorem title_and_name_validation (s : str) :
  ((exists m, TaskTitle.init s = Raise (ValidationError m))
     <-> (strip s = [] \/ (200 < List.length s)%nat))
  /\ (~ (strip s = [] \/ (200 < List.length s)%nat) ->
      TaskTitle.init s = Ok (TaskTitle.mk (strip s)))
  /\ ((exists m, TaskListName.init s = Raise (ValidationError m))
     <-> (strip s = [] \/ (100 < List.length s)%nat))
  /\ (~ (strip s = [] \/ (100 < List.length s)%nat) ->
      TaskListName.init s = Ok (TaskListName.mk (strip s)))
  /\ (forall r, TaskTitle.init s = Ok r -> TaskTitle.value r = strip s)
  /\ (forall r, TaskListName.init s = Ok r -> TaskListName.value r = strip s).
Proof.
  rewrite TaskTitle_init_stripped, TaskListName_init_stripped.
  destruct (stripped_field_spec 200 "Title cannot be empty" s)
    as (Ht1 & Ht2 & Ht3).
  destruct (stripped_field_spec 100 "Name cannot be empty" s)
    as (Hn1 & Hn2 & Hn3).
  repeat split.
  - intros [m Hm]. apply Ht1.
    destruct (stripped_field 200 _ s) as [v|e]; cbn in Hm; [discriminate|].
    inversion Hm; subst. eauto.
  - intros H. apply Ht1 in H. destruct H as [m Hm]. rewrite Hm. cbn. eauto.
  - intros H. rewrite (Ht2 H). reflexivity.
  - intros [m Hm]. apply Hn1.
    destruct (stripped_field 100 _ s) as [v|e]; cbn in Hm; [discriminate|].
    inversion Hm; subst. eauto.
  - intros H. apply Hn1 in H. destruct H as [m Hm]. rewrite Hm. cbn. eauto.
  - intros H. rewrite (Hn2 H). reflexivity.
  - intros r Hr.
    destruct (stripped_field 200 _ s) as [v|e] eqn:Hv; cbn in Hr;
      [|discriminate].
    inversion Hr; subst; cbn. now apply stripped_field_value in Hv.
  - intros r Hr.
    destruct (stripped_field 100 _ s) as [v|e] eqn:Hv; cbn in Hr;
      [|discriminate].
    inversion Hr; subst; cbn. now apply stripped_field_value in Hv.
Qed.

(** C4, counterexample to the claim as stated.  The title ["x" * 200 + " "]
    is not empty after stripping and its stripped form has exactly 200
    characters, yet construction fails; likewise the name ["x" * 100 + " "]. *)
Lemma title_and_name_validation_counterexample :
  (exists m, TaskTitle.init (padded 200) = Raise (ValidationError m))
  /\ List.length (strip (padded 200)) = 200%nat
  /\ (exists m, TaskListName.init (padded 100) = Raise (ValidationError m))
  /\ List.length (strip (padded 100)) = 100%nat.
Proof.
  split; [|split; [|split]].
  - eexists. vm_compute. reflexivity.
  - vm_compute. reflexivity.
  - eexists. vm_compute. reflexivity.
  - vm_compute. reflexivity.
Qed.

(** ** [CompletionPercentage] *)

Section Percentage.

Lemma ratio_bounds (total completed : Z) :
  (0 <= completed <= total)%Z -> (0 < total)%Z ->
  (0 <= inject_Z completed / inject_Z total * 100)%Q
  /\ (inject_Z completed / inject_Z total * 100 <= 100)%Q.
Proof.
  intros [Hc Ht] Hpos.
  assert (Hq : (0 < inject_Z total)%Q)
    by (change (inject_Z 0 < inject_Z total)%Q; rewrite <- Zlt_Qlt;
        exact Hpos).
  assert (H0 : (0 <= inject_Z completed / inject_Z total)%Q).
  { apply Qle_shift_div_l; [exact Hq|]. rewrite Qmult_0_l.
    change (inject_Z 0 <= inject_Z completed)%Q. rewrite <- Zle_Qle.
    exact Hc. }
  assert (H1 : (inject_Z completed / inject_Z total <= 1)%Q).
  { apply Qle_shift_div_r; [exact Hq|]. rewrite Qmult_1_l.
    rewrite <- Zle_Qle. exact Ht. }
  split.
  - apply Qmult_le_0_compat; [exact H0 | discriminate].
  - setoid_replace (100 : Q) with (1 * 100)%Q at 2 by reflexivity.
    apply Qmult_le_compat_r; [exact H1 | discriminate].
Qed.

(** Rounding to the nearest integer stays between the integers that bound
    the argument. *)
Lemma round_half_even_bounds (y : Q) (N : Z) :
  (0 <= y)%Q -> (y <= inject_Z N)%Q ->
  (0 <= round_half_even y <= N)%Z.
Proof.
  intros H0 H1.
  assert (Hf0 : (0 <= Qfloor y)%Z).
  { change 0%Z with (Qfloor (inject_Z 0)). rewrite Qfloor_Z.
    rewrite <- (Qfloor_Z 0). apply Qfloor_resp_le. exact H0. }
  assert (Hf1 : (Qfloor y <= N)%Z).
  { rewrite <- (Qfloor_Z N). apply Qfloor_resp_le. exact H1. }
  unfold round_half_even.
  destruct (Z.eq_dec (Qfloor y) N) as [E|E].
  - assert (Hlt : (y - inject_Z (Qfloor y) < 1 # 2)%Q).
    { rewrite E. apply Qle_lt_trans with 0%Q; [|reflexivity].
      apply (Qplus_le_l _ _ (inject_Z N)). ring_simplify. exact H1. }
    destruct (Qcompare (y - inject_Z (Qfloor y)) (1 # 2)) eqn:C; [|lia|];
      exfalso.
    + apply Qeq_alt in C. rewrite C in Hlt. exact (Qlt_irrefl _ Hlt).
    + apply Qgt_alt in C. exact (Qlt_irrefl _ (Qlt_trans _ _ _ Hlt C)).
  - destruct (_ ?= _)%Q; [destruct (Z.even _)| |]; lia.
Qed.

Lemma floor_log2_le (x : Q) (r : Z) :
  (0 < x)%Q -> (x <= inject_Z r)%Q -> (0 < r)%Z ->
  (Float.floor_log2 x <= Z.log2 r + 1)%Z.
Proof.
  intros Hx Hr Hpos.
  assert (Hk : (Z.log2 (Qnum x) - Z.log2 (QDen x) <= Z.log2 r + 1)%Z).
  { unfold Qle in Hr. cbn in Hr. rewrite Z.mul_1_r in Hr.
    pose proof (Z.log2_le_mono _ _ Hr) as H1.
    pose proof (@Z.log2_mul_above r (QDen x)) as H2.
    assert (0 <= r)%Z by lia. assert (0 <= QDen x)%Z by lia.
    specialize (H2 ltac:(assumption) ltac:(assumption)). lia. }
  unfold Float.floor_log2. cbv zeta. destruct (Qle_bool _ _); lia.
Qed.

Lemma two_power_neg (e : Z) :
  (e <= 0)%Z -> (2 ^ e == / inject_Z (2 ^ (- e)))%Q.
Proof.
  intros He. rewrite <- (Z.opp_involutive e) at 1.
  rewrite Qpower_opp. apply Qinv_comp.
  symmetry. apply (Zpower_Qpower 2). lia.
Qed.

(** Rounding to the nearest float keeps a positive number below a small
    integer bound finite and below that bound. *)
Lemma round_positive_bounded (x : Q) (r : Z) :
  (0 < x)%Q -> (x <= inject_Z r)%Q -> (0 < r)%Z -> (Z.log2 r < 52)%Z ->
  exists v, Float.round_positive x = Float.Finite v
            /\ (0 <= v)%Q /\ (v <= inject_Z r)%Q.
Proof.
  intros Hx Hr Hpos Hlog.
  pose proof (floor_log2_le Hx Hr Hpos) as Hfl.
  unfold Float.round_positive. cbv zeta.
  set (e := Z.max (Float.floor_log2 x - 52) (-1074)).
  assert (He : (e <= 0)%Z) by (unfold e; lia).
  set (P := (2 ^ (- e))%Z).
  assert (HP : (0 < P)%Z) by (unfold P; apply Z.pow_pos_nonneg; lia).
  assert (HPq : (0 < inject_Z P)%Q)
    by (change (inject_Z 0 < inject_Z P)%Q; rewrite <- Zlt_Qlt; exact HP).
  assert (Hpow : (2 ^ e == / inject_Z P)%Q) by (apply two_power_neg; exact He).
  assert (Hpow0 : (0 < 2 ^ e)%Q) by (apply Qpower_0_lt; reflexivity).
  assert (Hy : (x / 2 ^ e == x * inject_Z P)%Q).
  { unfold Qdiv. rewrite Hpow. rewrite Qinv_involutive. reflexivity. }
  assert (Hy0 : (0 <= x / 2 ^ e)%Q).
  { rewrite Hy. apply Qmult_le_0_compat; apply Qlt_le_weak; assumption. }
  assert (Hy1 : (x / 2 ^ e <= inject_Z (r * P))%Q).
  { rewrite Hy, inject_Z_mult. apply Qmult_le_compat_r; [exact Hr|].
    apply Qlt_le_weak; exact HPq. }
  destruct (round_half_even_bounds Hy0 Hy1) as [Hm0 Hm1].
  set (m := round_half_even (x / 2 ^ e)) in *.
  assert (Hv0 : (0 <= inject_Z m * 2 ^ e)%Q).
  { apply Qmult_le_0_compat; [|apply Qlt_le_weak; exact Hpow0].
    change (inject_Z 0 <= inject_Z m)%Q. rewrite <- Zle_Qle. exact Hm0. }
  assert (Hv1 : (inject_Z m * 2 ^ e <= inject_Z r)%Q).
  { rewrite Hpow. apply Qle_shift_div_r; [exact HPq|].
    rewrite <- inject_Z_mult, <- Zle_Qle. exact Hm1. }
  assert (Hbig : (inject_Z r < 2 ^ 1024)%Q).
  { apply Qlt_le_trans with (inject_Z (2 ^ 52)).
    - rewrite <- Zlt_Qlt.
      destruct (Z.log2_spec r Hpos) as [_ Hup].
      apply Z.lt_le_trans with (2 ^ Z.succ (Z.log2 r))%Z; [exact Hup|].
      apply Z.pow_le_mono_r; lia.
    - rewrite (Zpower_Qpower 2 52) by lia.
      apply Qpower_le_compat_l; [lia | discriminate]. }
  destruct (Qle_bool (2 ^ 1024) (inject_Z m * 2 ^ e)) eqn:Eo.
  - exfalso. apply Qle_bool_iff in Eo.
    apply (Qlt_not_le _ _ Hbig). apply Qle_trans with (1 := Eo). exact Hv1.
  - eexists. split; [reflexivity|].
    rewrite Qred_correct. split; assumption.
Qed.

Lemma round_bounded (x : Q) (r : Z) :
  (0 <= x)%Q -> (x <= inject_Z r)%Q -> (0 < r)%Z -> (Z.log2 r < 52)%Z ->
  exists v, Float.round x = Float.Finite v
            /\ (0 <= v)%Q /\ (v <= inject_Z r)%Q.
Proof.
  intros H0 H1 Hpos Hlog. unfold Float.round. cbv zeta.
  pose proof (Qred_correct x) as Hred.
  destruct (Qred x ?= 0)%Q eqn:E.
  - exists 0%Q. split; [reflexivity|]. split; [discriminate|].
    change (inject_Z 0 <= inject_Z r)%Q. rewrite <- Zle_Qle. lia.
  - exfalso. apply Qlt_alt in E. rewrite Hred in E.
    exact (Qlt_not_le _ _ E H0).
  - apply Qgt_alt in E. apply round_positive_bounded; try assumption.
    rewrite Hred. exact H1.
Qed.

Lemma round_compat (x y : Q) : (x == y)%Q -> Float.round x = Float.round y.
Proof.
  intros H. unfold Float.round. rewrite (Qred_complete _ _ H). reflexivity.
Qed.

Lemma init_in_range (v : Q) :
  (0 <= v)%Q -> (v <= 100)%Q ->
  CompletionPercentage.init (Float.Finite v)
  = Ok (CompletionPercentage.mk (Float.Finite v)).
Proof.
  intros H0 H1. unfold CompletionPercentage.init. cbn [Float.leb].
  apply Qle_bool_iff in H0. apply Qle_bool_iff in H1.
  rewrite H0, H1. reflexivity.
Qed.

Lemma init_out_of_range (v : Float.t) :
  Float.ltb v (Float.Finite 0) = true \/ Float.ltb (Float.Finite 100) v = true ->
  exists m, CompletionPercentage.init v = Raise (ValidationError m).
Proof.
  unfold Float.ltb, CompletionPercentage.init. intros [H|H].
  - apply negb_true_iff in H. rewrite H. eauto.
  - apply negb_true_iff in H. rewrite H.
    destruct (Float.leb _ v); eauto.
Qed.

(** The quotient of the counts is a float in [0, 1] and its product with
    100 a float in [0, 100]. *)
Lemma percentage_steps (total completed : Z) :
  (0 <= completed <= total)%Z -> (0 < total)%Z ->
  exists q v,
    Float.truediv completed total = Ok (Float.Finite q)
    /\ (0 <= q)%Q /\ (q <= 1)%Q
    /\ Float.mul (Float.Finite q) 100 = Float.Finite v
    /\ (0 <= v)%Q /\ (v <= 100)%Q.
Proof.
  intros [Hc Ht] Hpos.
  assert (Hq : (0 < inject_Z total)%Q)
    by (change (inject_Z 0 < inject_Z total)%Q; rewrite <- Zlt_Qlt;
        exact Hpos).
  assert (H0 : (0 <= inject_Z completed / inject_Z total)%Q).
  { apply Qle_shift_div_l; [exact Hq|]. rewrite Qmult_0_l.
    change (inject_Z 0 <= inject_Z completed)%Q. rewrite <- Zle_Qle.
    exact Hc. }
  assert (H1 : (inject_Z completed / inject_Z total <= inject_Z 1)%Q).
  { apply Qle_shift_div_r; [exact Hq|]. change (inject_Z 1) with 1%Q.
    rewrite Qmult_1_l. rewrite <- Zle_Qle. exact Ht. }
  destruct (@round_bounded _ 1 H0 H1) as (q & Eq & Hq0 & Hq1);
    [lia | cbn; lia |].
  assert (Hv0 : (0 <= q * 100)%Q)
    by (apply Qmult_le_0_compat; [exact Hq0 | discriminate]).
  assert (Hv1 : (q * 100 <= inject_Z 100)%Q).
  { change (inject_Z 100) with (1 * 100)%Q.
    apply Qmult_le_compat_r; [exact Hq1 | discriminate]. }
  destruct (@round_bounded _ 100 Hv0 Hv1) as (v & Ev & Hv0' & Hv1');
    [lia | cbn; lia |].
  exists q, v. unfold Float.truediv.
  destruct (Z.eqb_spec total 0) as [Hz|_]; [lia|].
  rewrite Eq. cbn [Float.mul]. auto 10.
Qed.

(** For up to a hundred tasks the percentage computed with [Float] is the
    one the machine's floats give. *)
Lemma float_model_agrees_with_hardware : Hardware.agree 100 = true.
Proof. vm_compute. reflexivity. Qed.

End Percentage.

(** C5.  For non-negative [total] and [completed] with
    [completed <= total], [calculate_from_tasks total completed] returns 0
    when [total] is 0 and otherwise the float product of the float quotient
    [completed / total] with 100, a value in [0, 100]; in particular (0,0)
    gives 0, (4,2) gives 50 and (3,3) gives 100, and (3,1) gives the float
    33.33333333333333; constructing a [CompletionPercentage] directly from
    a value outside [0, 100] fails. *)
Theorem calculate_from_tasks_spec (total completed : Z) :
  (0 <= completed <= total)%Z ->
  (exists v,
      CompletionPercentage.calculate_from_tasks total completed
      = Ok (CompletionPercentage.mk (Float.Finite v))
      /\ (if (total =? 0)%Z then v = 0%Q
          else exists q,
              Float.truediv completed total = Ok (Float.Finite q)
              /\ Float.mul (Float.Finite q) 100 = Float.Finite v)
      /\ (0 <= v)%Q
      /\ (v <= 100)%Q)
  /\ (CompletionPercentage.calculate_from_tasks 0 0
      = Ok (CompletionPercentage.mk (Float.Finite 0))
      /\ CompletionPercentage.calculate_from_tasks 4 2
         = Ok (CompletionPercentage.mk (Float.Finite 50))
      /\ CompletionPercentage.calculate_from_tasks 3 3
         = Ok (CompletionPercentage.mk (Float.Finite 100))
      /\ CompletionPercentage.calculate_from_tasks 3 1
         = Ok (CompletionPercentage.mk
                 (Float.Finite (2345624805922133 # 70368744177664))))
  /\ (forall v : Float.t,
        Float.ltb v (Float.Finite 0) = true
        \/ Float.ltb (Float.Finite 100) v = true ->
        exists m, CompletionPercentage.init v = Raise (ValidationError m)).
Proof.
  intros H. split; [|split].
  - unfold CompletionPercentage.calculate_from_tasks.
    destruct (Z.eqb_spec total 0) as [Hz|Hnz].
    + exists 0%Q. split; [reflexivity|]. split; [reflexivity|].
      split; discriminate.
    + assert (Hpos : (0 < total)%Z) by lia.
      destruct (percentage_steps H Hpos) as (q & v & Eq & _ & _ & Ev & H0 & H1).
      exists v. rewrite Eq. cbn [rbind]. rewrite Ev.
      split; [apply init_in_range; assumption|].
      split; [exists q; auto|]. split; assumption.
  - vm_compute. repeat split; reflexivity.
  - exact init_out_of_range.
Qed.

(** C5, at four tasks of which two are completed. *)
Lemma calculate_from_tasks_spec_witness :
  (0 <= 2 <= 4)%Z
  /\ CompletionPercentage.calculate_from_tasks 4 2
     = Ok (CompletionPercentage.mk (Float.Finite 50)).
Proof.
  assert (H : (0 <= 2 <= 4)%Z) by lia.
  split; [exact H|].
  exact (proj1 (proj2 (proj1 (proj2 (@calculate_from_tasks_spec 4 2 H))))).
Defined.

(* ================================================================== *)
(** * Properties of the [Task] entity *)
(* ================================================================== *)

Open Scope Z_scope.

Section Lifecycle.

Lemma transition_table_agrees (from to : TaskStatus.t) :
  Task._is_valid_status_transition from to = true
  <-> In to (Spec.successors from).
Proof.
  destruct from, to; cbn; intuition (try discriminate; auto).
Qed.

Lemma change_status_valid (now : datetime) (task : Task.t) (to : TaskStatus.t) :
  Task._is_valid_status_transition (Task.status task) to = true ->
  Task.change_status now task to
  = Ok (Task.mk (Task.title task) (Task.task_list_id task) (Task.id task)
          (Task.description task) to (Task.priority task)
          (Task.user_id task) (Task.created_at task) now).
Proof.
  intros H. unfold Task.change_status. rewrite H. reflexivity.
Qed.

Lemma change_status_invalid (now : datetime) (task : Task.t) (to : TaskStatus.t) :
  Task._is_valid_status_transition (Task.status task) to = false ->
  exists m, Task.change_status now task to = Raise (ValueError m).
Proof.
  intros H. unfold Task.change_status. rewrite H. cbn. eauto.
Qed.

Lemma self_transition_invalid (s : TaskStatus.t) :
  Task._is_valid_status_transition s s = false.
Proof. destruct s; reflexivity. Qed.

(** Every mutation that succeeds stamps the clock reading and keeps the
    creation time. *)
Lemma apply_stamps (now : datetime) (t t' : Task.t) (m : Task.mutation) :
  Task.apply now t m = Ok t' ->
  Task.updated_at t' = now /\ Task.created_at t' = Task.created_at t.
Proof.
  destruct m; cbn; intros H;
    [ unfold Task.change_status in H;
      destruct (negb _) in H; [discriminate|] | .. ];
    inversion H; subst; cbn; auto.
Qed.

End Lifecycle.

(** C1.  [change_status] succeeds exactly when the target is in the
    successor set of the current status (pending -> in_progress, completed;
    in_progress -> pending, completed; completed -> pending, in_progress);
    otherwise, and for every self-transition, it raises the [ValueError]
    "Invalid status transition ..."; on success the status is the target. *)
Theorem change_status_transition_table
    (now : datetime) (task : Task.t) (to : TaskStatus.t) :
  ((exists task', Task.change_status now task to = Ok task')
     <-> In to (Spec.successors (Task.status task)))
  /\ (forall task', Task.change_status now task to = Ok task' ->
        Task.status task' = to)
  /\ ((exists m, Task.change_status now task to = Raise (ValueError m))
     <-> ~ In to (Spec.successors (Task.status task)))
  /\ (exists m, Task.change_status now task (Task.status task)
                = Raise (ValueError m)).
Proof.
  pose proof (transition_table_agrees (Task.status task) to) as Htab.
  destruct (Task._is_valid_status_transition (Task.status task) to) eqn:Hv.
  - pose proof (change_status_valid now task to Hv) as Hok.
    split; [|split; [|split]].
    + split; [intros _; now apply Htab | intros _; eauto].
    + intros task' H. rewrite Hok in H. inversion H; subst. reflexivity.
    + split.
      * intros [m Hm]. rewrite Hok in Hm. discriminate.
      * intros Hn. exfalso. apply Hn. now apply Htab.
    + apply change_status_invalid, self_transition_invalid.
  - destruct (change_status_invalid now task to Hv) as [m Hm].
    assert (Hn : ~ In to (Spec.successors (Task.status task))).
    { intros Hin. apply Htab in Hin. discriminate. }
    split; [|split; [|split]].
    + split; [intros [t' Ht']; congruence | intros Hin; contradiction].
    + intros task' H. congruence.
    + split; [intros _; exact Hn | intros _; eauto].
    + apply change_status_invalid, self_transition_invalid.
Qed.

(** C1, the scenario of section 8: a fresh task "Fix bug" is pending, moves
    to in_progress, and a second move to in_progress is refused. *)
Lemma change_status_transition_table_witness :
  let task := Task.init_default 5 fix_bug 1 in
  exists task',
    Task.status task = TaskStatus.pending
    /\ Task.change_status 6 task TaskStatus.in_progress = Ok task'
    /\ Task.status task' = TaskStatus.in_progress
    /\ exists m, Task.change_status 7 task' TaskStatus.in_progress
                 = Raise (ValueError m).
Proof.
  cbv zeta.
  destruct (change_status_transition_table 6 (Task.init_default 5 fix_bug 1)
              TaskStatus.in_progress) as (Hiff & Hto & _).
  destruct (proj2 Hiff) as [task' Hrun]; [cbn; auto|].
  exists task'. split; [reflexivity|]. split; [exact Hrun|].
  pose proof (Hto task' Hrun) as Hst. split; [exact Hst|].
  destruct (change_status_transition_table 7 task' (Task.status task'))
    as (_ & _ & _ & Hself).
  rewrite Hst in Hself. exact Hself.
Defined.

(** C7.  [assign_to_user] followed by [unassign_user] leaves [user_id]
    unset and the title, priority and status as they were. *)
Theorem assign_then_unassign (now1 now2 : datetime) (task : Task.t) (uid : Z) :
  let task' := Task.unassign_user now2 (Task.assign_to_user now1 task uid) in
  Task.user_id task' = None
  /\ Task.is_assigned task' = false
  /\ Task.title task' = Task.title task
  /\ Task.priority task' = Task.priority task
  /\ Task.status task' = Task.status task.
Proof.
  cbn. repeat split; reflexivity.
Qed.

(** C6 (as the code has it).  A task constructed without an explicit
    [updated_at] has [updated_at = created_at]; every successful lifecycle
    mutation (status change, assignment, unassignment, title, description
    or priority update) sets [updated_at] to the clock reading and keeps
    [created_at]; so whenever that reading is later than the task's
    [updated_at], [updated_at] strictly increases and
    [updated_at >= created_at] is preserved. *)
Theorem updated_at_advances
    (now0 : datetime) (title : TaskTitle.t) (task_list_id : Z) (id : option Z)
    (description : option str) (status : TaskStatus.t)
    (priority : TaskPriority.t) (user_id : option Z)
    (created_at : option datetime)
    (now : datetime) (task task' : Task.t) (m : Task.mutation) :
  Task.apply now task m = Ok task' ->
  (let fresh := Task.init now0 title task_list_id id description status
                  priority user_id created_at None in
   Task.updated_at fresh = Task.created_at fresh)
  /\ Task.updated_at task' = now
  /\ Task.created_at task' = Task.created_at task
  /\ ((Task.updated_at task < now)%Z ->
      (Task.updated_at task < Task.updated_at task')%Z)
  /\ ((Task.created_at task <= Task.updated_at task)%Z ->
      (Task.updated_at task < now)%Z ->
      (Task.created_at task' <= Task.updated_at task')%Z).
Proof.
  intros Happ.
  destruct (apply_stamps _ _ _ Happ) as [Hu Hc].
  split; [reflexivity|]. rewrite Hu, Hc.
  split; [reflexivity|]. split; [reflexivity|]. split; intros; lia.
Qed.

(** C6, on a fresh task stamped at 5 whose status changes at 9. *)
Lemma updated_at_advances_witness :
  let task := Task.init_default 5 fix_bug 1 in
  exists task',
    Task.apply 9 task (Task.ChangeStatus TaskStatus.in_progress) = Ok task'
    /\ Task.updated_at task' = 9%Z
    /\ Task.created_at task' = 5%Z
    /\ (Task.updated_at task < Task.updated_at task')%Z
    /\ (Task.created_at task' <= Task.updated_at task')%Z.
Proof.
  cbv zeta.
  eexists. split; [reflexivity|].
  destruct (@updated_at_advances 5 fix_bug 1 None None TaskStatus.pending
              TaskPriority.medium None None 9
              (Task.init_default 5 fix_bug 1) _
              (Task.ChangeStatus TaskStatus.in_progress) eq_refl)
    as (_ & Hu & Hc & Hlt & Hinv).
  split; [exact Hu|]. split; [exact Hc|].
  split; [apply Hlt; cbn; lia | apply Hinv; cbn; lia].
Defined.

(** C6, counterexample to the claim as stated.  A task constructed with
    [created_at = 10] and [updated_at = 5] has [updated_at < created_at];
    and a status change whose clock reading equals the task's [updated_at]
    succeeds without increasing it. *)
Lemma updated_at_advances_counterexample :
  (let task := Task.init 0 fix_bug 1 None None TaskStatus.pending
                 TaskPriority.medium None (Some 10%Z) (Some 5%Z) in
   (Task.updated_at task < Task.created_at task)%Z)
  /\ (let task := Task.init_default 7 fix_bug 1 in
      exists task',
        Task.change_status 7 task TaskStatus.in_progress = Ok task'
        /\ Task.updated_at task' = Task.updated_at task).
Proof.
  split.
  - reflexivity.
  - cbv zeta. eexists. split; reflexivity.
Qed.

(* ================================================================== *)
(** * Properties of the session and the repositories *)
(* ================================================================== *)

Section Queries.

Lemma hd_firstn_filter {A} (p : A -> bool) (l : list A) :
  List.hd_error (firstn 1 (List.filter p l)) = List.find p l.
Proof.
  induction l as [|a l IH]; cbn; [reflexivity|].
  destruct (p a); cbn; [reflexivity | exact IH].
Qed.

Lemma filter_single {A} (p : A -> bool) (l : list A) :
  List.filter (fun r => forallb (fun q => q r) [p]) l = List.filter p l.
Proof.
  apply filter_ext. intros a. cbn. now rewrite andb_true_r.
Qed.

Lemma find_none_iff {A} (p : A -> bool) (l : list A) :
  List.find p l = None <-> (forall a, In a l -> p a = false).
Proof.
  split.
  - intros H a Ha. exact (find_none p l H a Ha).
  - induction l as [|a l IH]; cbn; intros H; [reflexivity|].
    rewrite (H a (or_introl eq_refl)). apply IH. intros b Hb.
    apply H. now right.
Qed.

Lemma select_single {Row} (t : Orm.table) (rows : Orm.Database -> list Row)
    (p : Row -> bool) (off : nat) (lim : option nat) (d : Orm.Database) :
  Orm.select (Orm.mkQuery t rows [p] off lim) d
  = match lim with
    | None => skipn off (List.filter p (rows d))
    | Some n => firstn n (skipn off (List.filter p (rows d)))
    end.
Proof.
  unfold Orm.select. cbn [Orm.q_where Orm.q_rows Orm.q_offset Orm.q_limit].
  now rewrite filter_single.
Qed.

(** [.first()] on a query with one filter: the first matching row. *)
Lemma first_task_list (p : TaskListRow.t -> bool) (s : Orm.Session) :
  Orm.first (Orm.filter_ Orm.query_task_list p) s
  = (Ok (List.find p (Orm.task_list (Orm.working s))),
     Orm.note (Orm.Select Orm.task_list_table) s).
Proof.
  unfold Orm.first, Orm.filter_, Orm.limit, Orm.query_task_list.
  cbn [Orm.q_where Orm.q_rows Orm.q_offset Orm.q_limit Orm.q_table app].
  unfold bind, Orm.record, modify, get, ret.
  rewrite select_single. cbn [skipn Orm.working Orm.note].
  now rewrite hd_firstn_filter.
Qed.

Lemma first_task (p : TaskRow.t -> bool) (s : Orm.Session) :
  Orm.first (Orm.filter_ Orm.query_task p) s
  = (Ok (List.find p (Orm.task (Orm.working s))),
     Orm.note (Orm.Select Orm.task_table) s).
Proof.
  unfold Orm.first, Orm.filter_, Orm.limit, Orm.query_task.
  cbn [Orm.q_where Orm.q_rows Orm.q_offset Orm.q_limit Orm.q_table app].
  unfold bind, Orm.record, modify, get, ret.
  rewrite select_single. cbn [skipn Orm.working Orm.note].
  now rewrite hd_firstn_filter.
Qed.

Lemma get_by_task_list_id_spec (task_list_id : Z) (skip lim : nat)
    (s : Orm.Session) :
  TaskRepository.get_by_task_list_id task_list_id skip lim s
  = (Ok (firstn lim (skipn skip (tasks_of_list task_list_id (Orm.working s)))),
     Orm.note (Orm.Select Orm.task_table) s).
Proof.
  unfold TaskRepository.get_by_task_list_id, Orm.all, Orm.filter_, Orm.limit,
    Orm.offset, Orm.query_task.
  cbn [Orm.q_where Orm.q_rows Orm.q_offset Orm.q_limit Orm.q_table app].
  unfold bind, Orm.record, modify, get, ret.
  rewrite select_single. reflexivity.
Qed.

(** The page query touches the task table once and nothing else. *)
Lemma get_tasks_with_filters_spec
    (task_list_id user_id : option Z) (status : option TaskStatus.t)
    (priority : option TaskPriority.t) (skip lim : nat) (s : Orm.Session) :
  exists page,
    TaskRepository.get_tasks_with_filters task_list_id user_id status priority
      skip lim s
    = (Ok page, Orm.note (Orm.Select Orm.task_table) s)
    /\ (List.length page <= lim)%nat.
Proof.
  unfold TaskRepository.get_tasks_with_filters, Orm.all.
  destruct task_list_id, user_id, status, priority; cbn;
    (eexists; split; [reflexivity | apply firstn_le_length]).
Qed.

End Queries.

(** ** [list_tasks] *)

Section Listing.

Variables (task_list_id : Z) (status : option TaskStatus.t)
          (priority : option TaskPriority.t) (user_id : option Z)
          (skip lim : nat) (s : Orm.Session).

Let exists_check : TaskListRow.t -> bool :=
  fun r => (TaskListRow.id r =? task_list_id).

Lemma list_tasks_missing :
  List.find exists_check (Orm.task_list (Orm.working s)) = None ->
  UseCases.list_tasks task_list_id status priority user_id skip lim s
  = (Raise (NotFoundException [Lit "Task list with id ";
                               Fmt (VInt task_list_id); Lit " not found"]),
     Orm.note (Orm.Select Orm.task_list_table) s).
Proof.
  intros H. unfold UseCases.list_tasks, TaskListRepository.get_by_id, bind.
  rewrite first_task_list. fold exists_check. rewrite H. reflexivity.
Qed.

(** When the list exists, the aggregates are computed from the first
    [default_limit] tasks of the list, whatever the filters and the page. *)
Lemma list_tasks_found (tl : TaskListRow.t) :
  List.find exists_check (Orm.task_list (Orm.working s)) = Some tl ->
  exists r,
    UseCases.list_tasks task_list_id status priority user_id skip lim s
    = (Ok r,
       Orm.note (Orm.Select Orm.task_table)
         (Orm.note (Orm.Select Orm.task_table)
            (Orm.note (Orm.Select Orm.task_list_table) s)))
    /\ let counted :=
         firstn TaskRepository.default_limit
                (tasks_of_list task_list_id (Orm.working s)) in
       TaskListing.total r = List.length counted
       /\ TaskListing.completed r
          = List.length (List.filter is_completed_row counted)
       /\ Pagination.returned (TaskListing.pagination r)
          = List.length (TaskListing.tasks r)
       /\ Pagination.skip (TaskListing.pagination r) = skip
       /\ Pagination.limit (TaskListing.pagination r) = lim
       /\ (List.length (TaskListing.tasks r) <= lim)%nat.
Proof.
  intros H. unfold UseCases.list_tasks, TaskListRepository.get_by_id, bind.
  rewrite first_task_list. fold exists_check. rewrite H.
  destruct (get_tasks_with_filters_spec (Some task_list_id) user_id status
              priority skip lim
              (Orm.note (Orm.Select Orm.task_list_table) s))
    as (page & Hpage & Hlen).
  rewrite Hpage. rewrite get_by_task_list_id_spec. cbn.
  eexists. split; [reflexivity|]. cbn. repeat split; auto.
Qed.

End Listing.

(** With at most [default_limit] tasks in the list, the aggregates are those
    of the whole list. *)
Lemma list_tasks_small_list
    (task_list_id : Z) (status : option TaskStatus.t)
    (priority : option TaskPriority.t) (user_id : option Z)
    (skip lim : nat) (s : Orm.Session) (tl : TaskListRow.t) :
  List.find (fun r => TaskListRow.id r =? task_list_id)
            (Orm.task_list (Orm.working s)) = Some tl ->
  (List.length (tasks_of_list task_list_id (Orm.working s)) <= 100)%nat ->
  exists r s',
    UseCases.list_tasks task_list_id status priority user_id skip lim s
    = (Ok r, s')
    /\ TaskListing.total r
       = List.length (tasks_of_list task_list_id (Orm.working s))
    /\ TaskListing.completed r
       = List.length (List.filter is_completed_row
                        (tasks_of_list task_list_id (Orm.working s))).
Proof.
  intros Hfind Hsmall.
  destruct (list_tasks_found task_list_id status priority user_id skip lim s
              Hfind) as (r & Hr & Htot & Hcomp & _).
  exists r. eexists. split; [exact Hr|].
  unfold TaskRepository.default_limit in *.
  rewrite firstn_all2 in Htot, Hcomp by exact Hsmall. auto.
Qed.

(** In general [total] is the size of the list cut at [default_limit]. *)
Lemma list_tasks_total_min
    (task_list_id : Z) (status : option TaskStatus.t)
    (priority : option TaskPriority.t) (user_id : option Z)
    (skip lim : nat) (s : Orm.Session) (tl : TaskListRow.t) :
  List.find (fun r => TaskListRow.id r =? task_list_id)
            (Orm.task_list (Orm.working s)) = Some tl ->
  exists r s',
    UseCases.list_tasks task_list_id status priority user_id skip lim s
    = (Ok r, s')
    /\ TaskListing.total r
       = Nat.min 100 (List.length
                        (tasks_of_list task_list_id (Orm.working s))).
Proof.
  intros Hfind.
  destruct (list_tasks_found task_list_id status priority user_id skip lim s
              Hfind) as (r & Hr & Htot & _).
  exists r. eexists. split; [exact Hr|].
  rewrite Htot. apply length_firstn.
Qed.

(** The example of section 8: four tasks, two of them completed, listed with
    the filter [status = pending]: a page of two, [total = 4],
    [completed = 2], [percent_complete = 50]. *)
Example list_tasks_filtered_page :
  exists r s',
    UseCases.list_tasks 1 (Some TaskStatus.pending) None None 0 100 four_tasks
    = (Ok r, s')
    /\ List.length (TaskListing.tasks r) = 2%nat
    /\ TaskListing.total r = 4%nat
    /\ TaskListing.completed r = 2%nat
    /\ (TaskListing.percent_complete r == 50)%Q.
Proof.
  eexists _, _. split; [vm_compute; reflexivity|].
  repeat split; reflexivity.
Qed.

(** C2, at the failing input.  On a list of 101 tasks, listed with
    [limit = 1000], the page returns the 101 tasks and [total] is 100: the
    aggregates are computed from [get_by_task_list_id] called with its
    default [limit = 100]. *)
Theorem list_tasks_total_is_capped :
  exists r s',
    UseCases.list_tasks 1 None None None 0 1000 (crowded 101) = (Ok r, s')
    /\ List.length (tasks_of_list 1 (Orm.working (crowded 101))) = 101%nat
    /\ List.length (TaskListing.tasks r) = 101%nat
    /\ TaskListing.total r = 100%nat.
Proof.
  eexists _, _. split; [vm_compute; reflexivity|].
  repeat split; vm_compute; reflexivity.
Qed.

(** C3.  On a task list id that no row of the task-list table carries,
    [list_tasks] raises [NotFoundException] after one access, the lookup of
    the task list: the task table is not queried and the database is left
    as it was.  In every run the lookup of the task list is the first
    access. *)
Theorem list_tasks_not_found_first
    (task_list_id : Z) (status : option TaskStatus.t)
    (priority : option TaskPriority.t) (user_id : option Z)
    (skip lim : nat) (s : Orm.Session) :
  (forall r, In r (Orm.task_list (Orm.working s)) ->
             TaskListRow.id r <> task_list_id) ->
  let run := UseCases.list_tasks task_list_id status priority user_id
               skip lim s in
  (exists m, fst run = Raise (NotFoundException m))
  /\ Orm.events (snd run)
     = Orm.events s ++ [Orm.Select Orm.task_list_table]
  /\ Orm.working (snd run) = Orm.working s
  /\ Orm.committed (snd run) = Orm.committed s
  /\ (forall s0 : Orm.Session,
        exists rest,
          Orm.events (snd (UseCases.list_tasks task_list_id status priority
                             user_id skip lim s0))
          = Orm.events s0 ++ Orm.Select Orm.task_list_table :: rest).
Proof.
  intros Hmissing run.
  assert (Hnone : List.find (fun r => TaskListRow.id r =? task_list_id)
                    (Orm.task_list (Orm.working s)) = None).
  { apply find_none_iff. intros r Hr. apply Z.eqb_neq. now apply Hmissing. }
  subst run. split; [|split; [|split; [|split]]];
    try (rewrite (list_tasks_missing _ status priority user_id skip lim _
                    Hnone); cbn; eauto; fail).
  intros s0.
  destruct (List.find (fun r => TaskListRow.id r =? task_list_id)
              (Orm.task_list (Orm.working s0))) as [tl|] eqn:Hf.
  - destruct (list_tasks_found task_list_id status priority user_id skip lim
                s0 Hf) as (r & Hr & _).
    rewrite Hr. cbn. rewrite <- !app_assoc. cbn. eauto.
  - rewrite (list_tasks_missing _ status priority user_id skip lim _ Hf).
    cbn. eauto.
Qed.

(** C3, on a session without any task list. *)
Lemma list_tasks_not_found_first_witness :
  let run := UseCases.list_tasks 7 (Some TaskStatus.pending) None None 0 100
               empty_session in
  (exists m, fst run = Raise (NotFoundException m))
  /\ Orm.events (snd run) = [Orm.Select Orm.task_list_table].
Proof.
  destruct (@list_tasks_not_found_first 7 (Some TaskStatus.pending) None None
              0%nat 100%nat empty_session
              ltac:(intros r []))
    as (Hraise & Hevents & _).
  split; [exact Hraise | exact Hevents].
Defined.

(** ** [create_task_list] *)

Section TaskLists.

Lemma str_eqb_eq (a b : str) : str_eqb a b = true <-> a = b.
Proof.
  unfold str_eqb. destruct (list_eq_dec N.eq_dec a b); split; intros H;
    congruence.
Qed.

Lemma fold_max_bound (ids : list Z) (x : Z) :
  In x ids -> x <= List.fold_right Z.max 0 ids.
Proof.
  induction ids as [|a ids IH]; cbn; [tauto|].
  intros [->|H]; [lia | specialize (IH H); lia].
Qed.

Lemma next_id_fresh (ids : list Z) (x : Z) : In x ids -> x < Orm.next_id ids.
Proof.
  intros H. apply fold_max_bound in H. unfold Orm.next_id. lia.
Qed.

Lemma find_fresh_last (l : list TaskListRow.t) (row : TaskListRow.t) :
  TaskListRow.id row = Orm.next_id (List.map TaskListRow.id l) ->
  List.find (fun r => TaskListRow.id r =? TaskListRow.id row) (l ++ [row])
  = Some row.
Proof.
  intros Hid.
  assert (Hold : forall r, In r l -> TaskListRow.id r < TaskListRow.id row).
  { intros r Hr. rewrite Hid. apply next_id_fresh. now apply in_map. }
  clear Hid. induction l as [|a l IH]; cbn.
  - now rewrite Z.eqb_refl.
  - destruct (Z.eqb_spec (TaskListRow.id a) (TaskListRow.id row)) as [E|_].
    + specialize (Hold a (or_introl eq_refl)). lia.
    + apply IH. intros r Hr. apply Hold. now right.
Qed.

Lemma create_task_list_conflict (name : str) (s : Orm.Session)
    (existing : TaskListRow.t) :
  List.find (fun r => str_eqb (TaskListRow.name r) name)
            (Orm.task_list (Orm.working s)) = Some existing ->
  UseCases.create_task_list name s
  = (Raise (ConflictException [Lit "Task list with name '"; Fmt (VStr name);
                               Lit "' already exists"]),
     Orm.note (Orm.Select Orm.task_list_table) s).
Proof.
  intros H. unfold UseCases.create_task_list, TaskListRepository.get_by_name,
    bind.
  rewrite first_task_list, H. reflexivity.
Qed.

Lemma create_task_list_fresh (name : str) (s : Orm.Session) :
  List.find (fun r => str_eqb (TaskListRow.name r) name)
            (Orm.task_list (Orm.working s)) = None ->
  let old := Orm.task_list (Orm.working s) in
  let row := TaskListRow.mk (Orm.next_id (List.map TaskListRow.id old)) name
               (Orm.clock s) (Orm.clock s) in
  exists s',
    UseCases.create_task_list name s = (Ok row, s')
    /\ Orm.task_list (Orm.committed s') = old ++ [row]
    /\ Orm.task_list (Orm.working s') = old ++ [row].
Proof.
  intros H old row.
  unfold UseCases.create_task_list, TaskListRepository.get_by_name, bind.
  rewrite first_task_list, H.
  unfold TaskListRepository.create, Orm.add_task_list, Orm.commit,
    Orm.refresh_task_list, Orm.record, bind, get, put, modify, ret.
  cbn [Orm.note Orm.working Orm.committed Orm.clock Orm.events Orm.modified
       Orm.task_list Orm.task fst snd].
  fold old.
  pose proof (@find_fresh_last old row eq_refl) as Hfind.
  cbn [TaskListRow.id row] in Hfind. subst row. cbn [TaskListRow.id] in Hfind.
  rewrite Hfind. unfold Orm.refreshed, ret.
  eexists. split; [reflexivity|]. split; reflexivity.
Qed.

End TaskLists.

(** C8.  Creating a task list under a name that a task list already bears
    raises [ConflictException] and leaves the database, working and
    committed, as it was; creating one under an unused name succeeds, and
    the committed task-list table is the former one followed by the new
    row, whose key is fresh. *)
Theorem create_task_list_unique_name (name : str) (s : Orm.Session) :
  ((exists r, In r (Orm.task_list (Orm.working s))
              /\ TaskListRow.name r = name) ->
   exists m s',
     UseCases.create_task_list name s = (Raise (ConflictException m), s')
     /\ Orm.working s' = Orm.working s
     /\ Orm.committed s' = Orm.committed s)
  /\ ((forall r, In r (Orm.task_list (Orm.working s)) ->
                 TaskListRow.name r <> name) ->
      exists row s',
        UseCases.create_task_list name s = (Ok row, s')
        /\ TaskListRow.name row = name
        /\ Orm.task_list (Orm.committed s')
           = Orm.task_list (Orm.working s) ++ [row]
        /\ (forall r, In r (Orm.task_list (Orm.working s)) ->
                      TaskListRow.id r <> TaskListRow.id row)).
Proof.
  split.
  - intros (r & Hin & Hname).
    destruct (List.find (fun r => str_eqb (TaskListRow.name r) name)
                (Orm.task_list (Orm.working s))) as [x|] eqn:Hf.
    + rewrite (create_task_list_conflict _ _ Hf). eexists _, _.
      split; [reflexivity|]. split; reflexivity.
    + exfalso. pose proof (find_none _ _ Hf r Hin) as Hno. cbn in Hno.
      apply str_eqb_eq in Hname. congruence.
  - intros Hunused.
    assert (Hf : List.find (fun r => str_eqb (TaskListRow.name r) name)
                   (Orm.task_list (Orm.working s)) = None).
    { apply find_none_iff. intros r Hr.
      destruct (str_eqb (TaskListRow.name r) name) eqn:E; [|reflexivity].
      apply str_eqb_eq in E. now apply Hunused in Hr. }
    destruct (create_task_list_fresh _ _ Hf) as (s' & Hrun & Hcom & _).
    eexists _, s'. split; [exact Hrun|]. split; [reflexivity|].
    split; [exact Hcom|].
    intros r Hr. cbn [TaskListRow.id]. apply Z.lt_neq.
    apply next_id_fresh. now apply in_map.
Qed.

(** C8, the scenario: "Sprint 1" is created on an empty database, and a
    second creation under that name is refused and adds nothing. *)
Lemma create_task_list_unique_name_witness :
  let name := of_string "Sprint 1" in
  exists row s1 m s2,
    UseCases.create_task_list name empty_session = (Ok row, s1)
    /\ UseCases.create_task_list name s1 = (Raise (ConflictException m), s2)
    /\ Orm.task_list (Orm.committed s2) = [row].
Proof.
  cbv zeta.
  destruct (proj2 (create_task_list_unique_name (of_string "Sprint 1")
                     empty_session) ltac:(intros r []))
    as (row & s1 & Hrun1 & Hname & Hcom1 & _).
  assert (Hw : Orm.task_list (Orm.working s1) = [row]).
  { revert Hrun1. vm_compute. intros H. inversion H. reflexivity. }
  destruct (proj1 (create_task_list_unique_name (of_string "Sprint 1") s1))
    as (m & s2 & Hrun2 & _ & Hcom2).
  { exists row. rewrite Hw. split; [now left | exact Hname]. }
  exists row, s1, m, s2. split; [exact Hrun1|]. split; [exact Hrun2|].
  rewrite Hcom2. exact Hcom1.
Defined.

(** ** [change_task_status] *)

Section ChangeStatus.

Lemma find_map_same {A} (p : A -> bool) (f : A -> A) (l : list A) :
  (forall a, p (f a) = p a) ->
  List.find p (List.map f l) = option_map f (List.find p l).
Proof.
  intros H. induction l as [|a l IH]; cbn; [reflexivity|].
  rewrite H. destruct (p a); [reflexivity | exact IH].
Qed.

Lemma find_key (task_id : Z) (l : list TaskRow.t) (t : TaskRow.t) :
  List.find (fun r => TaskRow.id r =? task_id) l = Some t ->
  TaskRow.id t = task_id /\ In t l.
Proof.
  intros H. apply find_some in H. destruct H as [Hin Hid].
  apply Z.eqb_eq in Hid. auto.
Qed.

End ChangeStatus.

(** C10, at the failing input.  [change_task_status] hands the unmapped
    dataclass to [db.query]: for every key, every target status and every
    session the call raises [ArgumentError] and leaves the session as it
    was.  On a session that holds the pending task 1, the request to
    complete it returns no task, and the task stays pending. *)
Theorem change_task_status_always_raises
    (task_id : Z) (status : TaskStatus.t) (s : Orm.Session) :
  (exists m,
      UseCases.change_task_status task_id status s = (Raise (Exception m), s))
  /\ (let s0 := session_of (Orm.mkDatabase [sprint_1]
                              [task_row 1 TaskStatus.pending]) in
      let run := UseCases.change_task_status 1 TaskStatus.completed s0 in
      (exists m, fst run = Raise (Exception m))
      /\ List.find (fun r => TaskRow.id r =? 1) (Orm.task (Orm.committed s0))
         = Some (task_row 1 TaskStatus.pending)
      /\ Orm.committed (snd run) = Orm.committed s0
      /\ Orm.working (snd run) = Orm.working s0
      /\ Orm.events (snd run) = Orm.events s0).
Proof.
  split.
  - eexists. reflexivity.
  - cbv zeta. split; [eexists; reflexivity|]. repeat split; reflexivity.
Qed.

(* ================================================================== *)
(** * Properties of the notification service *)
(* ================================================================== *)

Section Notifier.

Import Notification.

(** Unfolds a notifier down to the reads it performs. *)
Ltac run_notifier :=
  unfold send_task_assignment_notification, assignment_body,
    send_task_unassignment_notification, unassignment_body,
    send_task_status_change_notification, status_change_body,
    try_except, or_else, no_description, getattr, log, lift, bind, ret, modify;
  cbn [fst snd forallb is_ok andb
       TaskObj.id TaskObj.title TaskObj.description TaskObj.status
       TaskObj.priority UserObj.name UserObj.email].

Ltac read_all :=
  repeat match goal with
         | |- context [match ?a with Ok _ => _ | Raise _ => _ end] =>
             is_var a; destruct a; cbn [fst snd forallb is_ok andb]
         | |- context [if truthy ?v then _ else _] =>
             destruct (truthy v); cbn [fst snd forallb is_ok andb]
         end.

Lemma assignment_outcome (task : TaskObj.t) (user : UserObj.t) (l : Logger) :
  fst (send_task_assignment_notification task user l)
  = Ok (forallb is_ok
          [TaskObj.title task; UserObj.name user; UserObj.email user;
           TaskObj.description task; TaskObj.status task;
           TaskObj.priority task; TaskObj.id task]).
Proof.
  destruct task as [tid title descr st pr], user as [name email].
  run_notifier.
  destruct title, name, email, descr, st, pr, tid;
    cbn [fst snd forallb is_ok andb]; read_all; reflexivity.
Qed.

Lemma unassignment_outcome (task : TaskObj.t) (user : UserObj.t) (l : Logger) :
  fst (send_task_unassignment_notification task user l)
  = Ok (forallb is_ok
          [TaskObj.title task; UserObj.name user; UserObj.email user;
           TaskObj.description task; TaskObj.id task]).
Proof.
  destruct task as [tid title descr st pr], user as [name email].
  run_notifier.
  destruct title, name, email, descr, tid;
    cbn [fst snd forallb is_ok andb]; read_all; reflexivity.
Qed.

Lemma status_change_outcome (task : TaskObj.t) (old_status : str)
    (user : UserObj.t) (l : Logger) :
  fst (send_task_status_change_notification task old_status (Some user) l)
  = Ok (forallb is_ok
          [TaskObj.title task; UserObj.name user; UserObj.email user;
           TaskObj.status task; TaskObj.id task]).
Proof.
  destruct task as [tid title descr st pr], user as [name email].
  run_notifier.
  destruct title, name, email, st, tid;
    cbn [fst snd forallb is_ok andb]; read_all; reflexivity.
Qed.

Lemma status_change_unassigned (task : TaskObj.t) (old_status : str)
    (l : Logger) (pk : value) :
  TaskObj.id task = Ok pk ->
  send_task_status_change_notification task old_status None l
  = (Ok true,
     l ++ [(DEBUG, [Lit "No user assigned to task "; Fmt pk;
                    Lit ", skipping notification"])]).
Proof.
  intros H. run_notifier. rewrite H. reflexivity.
Qed.

Lemma emails_app (l l' : Logger) : emails (l ++ l') = emails l ++ emails l'.
Proof.
  unfold emails. now rewrite filter_app, map_app.
Qed.

End Notifier.

(** The assignment and unassignment notifications, and the status-change
    notification called with an assigned user, always return a boolean and
    never raise: the result is [True] when every attribute they read is
    readable and [False] as soon as one read raises.  The status-change
    notification called without an assigned user returns [True] and sends
    nothing whenever the task's [id] is readable. *)
Lemma notifications_report_booleans
    (task : Notification.TaskObj.t) (user : Notification.UserObj.t)
    (old_status : str) (l : Notification.Logger) :
  fst (Notification.send_task_assignment_notification task user l)
  = Ok (forallb is_ok
          [Notification.TaskObj.title task; Notification.UserObj.name user;
           Notification.UserObj.email user;
           Notification.TaskObj.description task;
           Notification.TaskObj.status task;
           Notification.TaskObj.priority task; Notification.TaskObj.id task])
  /\ fst (Notification.send_task_unassignment_notification task user l)
     = Ok (forallb is_ok
             [Notification.TaskObj.title task; Notification.UserObj.name user;
              Notification.UserObj.email user;
              Notification.TaskObj.description task;
              Notification.TaskObj.id task])
  /\ fst (Notification.send_task_status_change_notification task old_status
            (Some user) l)
     = Ok (forallb is_ok
             [Notification.TaskObj.title task; Notification.UserObj.name user;
              Notification.UserObj.email user;
              Notification.TaskObj.status task; Notification.TaskObj.id task])
  /\ (forall pk, Notification.TaskObj.id task = Ok pk ->
        let run := Notification.send_task_status_change_notification task
                     old_status None l in
        fst run = Ok true
        /\ Notification.emails (snd run) = Notification.emails l).
Proof.
  split; [apply assignment_outcome|].
  split; [apply unassignment_outcome|].
  split; [apply status_change_outcome|].
  intros pk Hpk run. subst run.
  rewrite (status_change_unassigned task old_status l Hpk).
  split; [reflexivity|].
  cbn [snd]. rewrite emails_app. cbn. now rewrite app_nil_r.
Qed.

(** C9, at the failing input.  With no assigned user the debug record is
    formatted before the [try]: on a task whose [id] cannot be read the
    status-change notification raises to the caller, where the same call
    with an assigned user, and the two other notifications, catch the
    failure and return [False]. *)
Theorem status_change_without_user_raises :
  fst (Notification.send_task_status_change_notification detached_task
         (of_string "pending") None [])
  = Raise (Exception [Lit "Database error"])
  /\ fst (Notification.send_task_status_change_notification detached_task
            (of_string "pending") (Some user_obj) [])
     = Ok false
  /\ fst (Notification.send_task_assignment_notification detached_task
            user_obj [])
     = Ok false
  /\ fst (Notification.send_task_unassignment_notification detached_task
            user_obj [])
     = Ok false.
Proof. repeat split; reflexivity. Qed.

(* ================================================================== *)
(** * Further properties: stripped strings *)
(* ================================================================== *)

Section Stripping.

Lemma lstrip_head (s : str) (c : codepoint) (r : str) :
  lstrip s = c :: r -> isspace c = false.
Proof.
  induction s as [|a s IH]; cbn; [discriminate|].
  destruct (isspace a) eqn:E; [exact IH|].
  intros H. inversion H; subst. exact E.
Qed.

Lemma lstrip_fixed (c : codepoint) (r : str) :
  isspace c = false -> lstrip (c :: r) = c :: r.
Proof. intros H. cbn. now rewrite H. Qed.

Lemma lstrip_idem (s : str) : lstrip (lstrip s) = lstrip s.
Proof.
  destruct (lstrip s) as [|c r] eqn:E; [reflexivity|].
  apply lstrip_fixed. exact (lstrip_head _ E).
Qed.

Lemma lstrip_suffix (s : str) : exists pre, s = pre ++ lstrip s.
Proof.
  induction s as [|a s [pre IH]]; [now exists []|]. cbn.
  destruct (isspace a).
  - exists (a :: pre). cbn. now rewrite <- IH.
  - now exists [].
Qed.

Lemma rstrip_prefix (s : str) : exists suf, s = rstrip s ++ suf.
Proof.
  unfold rstrip. destruct (lstrip_suffix (rev s)) as [pre H].
  exists (rev pre). rewrite <- rev_app_distr, <- H. now rewrite rev_involutive.
Qed.

Lemma length_strip (s : str) : (List.length (strip s) <= List.length s)%nat.
Proof.
  unfold strip.
  destruct (rstrip_prefix (lstrip s)) as [suf H1].
  destruct (lstrip_suffix s) as [pre H2].
  apply (f_equal (@List.length _)) in H1, H2.
  rewrite length_app in H1, H2. lia.
Qed.

Lemma strip_head (s : str) (c : codepoint) (r : str) :
  strip s = c :: r -> isspace c = false.
Proof.
  unfold strip. intros H.
  destruct (rstrip_prefix (lstrip s)) as [suf H1].
  rewrite H in H1. cbn in H1. exact (lstrip_head _ H1).
Qed.

Lemma strip_last (s : str) (r : str) (c : codepoint) :
  strip s = r ++ [c] -> isspace c = false.
Proof.
  unfold strip, rstrip. intros H.
  apply (f_equal (@rev _)) in H.
  rewrite rev_involutive, rev_app_distr in H. cbn in H.
  exact (lstrip_head _ H).
Qed.

Lemma strip_idem (s : str) : strip (strip s) = strip s.
Proof.
  destruct (strip s) as [|c r] eqn:E; [reflexivity|].
  unfold strip at 1. rewrite (@lstrip_fixed c r (strip_head _ E)).
  unfold rstrip. rewrite <- E. unfold strip at 1, rstrip at 1.
  rewrite rev_involutive, lstrip_idem. reflexivity.
Qed.

(** What a successful run of the shared constructor tells. *)
Lemma stripped_field_ok (hi : nat) (what : string) (s v : str) :
  stripped_field hi what s = Ok v ->
  v = strip s /\ v <> [] /\ (List.length s <= hi)%nat.
Proof.
  intros H. pose proof (stripped_field_value _ _ _ H) as Hv.
  destruct (stripped_field_spec hi what s) as (Hiff & _ & _).
  split; [exact Hv|]. split.
  - intros Hnil. destruct (proj2 Hiff) as [m Hm]; [left; congruence|].
    congruence.
  - destruct (Nat.ltb_spec hi (List.length s)) as [Hl|Hl]; [|exact Hl].
    destruct (proj2 Hiff) as [m Hm]; [now right|]. congruence.
Qed.

Lemma stripped_field_again (hi : nat) (what : string) (s v : str) :
  stripped_field hi what s = Ok v -> stripped_field hi what v = Ok v.
Proof.
  intros H. destruct (stripped_field_ok _ _ _ H) as (Hv & Hne & Hlen).
  destruct (stripped_field_spec hi what v) as (_ & Hok & _).
  rewrite Hok.
  - subst v. now rewrite strip_idem.
  - intros [Hnil|Hlong].
    + subst v. rewrite strip_idem in Hnil. contradiction.
    + subst v. pose proof (length_strip s). lia.
Qed.

Lemma stripped_field_trimmed (hi : nat) (what : string) (s v : str) :
  stripped_field hi what s = Ok v -> trimmed hi v.
Proof.
  intros H. destruct (stripped_field_ok _ _ _ H) as (Hv & Hne & Hlen).
  pose proof (length_strip s) as Hle. subst v.
  split; [|split].
  - destruct (strip s); [contradiction | cbn in *; lia].
  - intros c r E. exact (@strip_head s c r E).
  - intros r c E. exact (@strip_last s r c E).
Qed.

End Stripping.

(** X1.  The value stored in a [TaskTitle] or a [TaskListName] is never
    empty, has at most 200 (resp. 100) characters and neither starts nor
    ends with white space. *)
Theorem stored_value_is_trimmed (s : str) (t : TaskTitle.t)
    (n : TaskListName.t) :
  (TaskTitle.init s = Ok t -> trimmed 200 (TaskTitle.value t))
  /\ (TaskListName.init s = Ok n -> trimmed 100 (TaskListName.value n)).
Proof.
  rewrite TaskTitle_init_stripped, TaskListName_init_stripped. split.
  - destruct (stripped_field 200 _ s) as [v|e] eqn:E; cbn; [|discriminate].
    intros H. inversion H; subst. cbn. exact (stripped_field_trimmed _ _ _ E).
  - destruct (stripped_field 100 _ s) as [v|e] eqn:E; cbn; [|discriminate].
    intros H. inversion H; subst. cbn. exact (stripped_field_trimmed _ _ _ E).
Qed.

(** X1, on the title of the unit tests, ["  Trimmed Title  "]. *)
Lemma stored_value_is_trimmed_witness :
  exists t,
    TaskTitle.init (of_string "  Trimmed Title  ") = Ok t
    /\ TaskTitle.value t = of_string "Trimmed Title"
    /\ trimmed 200 (TaskTitle.value t).
Proof.
  exists (TaskTitle.mk (of_string "Trimmed Title")).
  split; [reflexivity|]. split; [reflexivity|].
  exact (proj1 (stored_value_is_trimmed (of_string "  Trimmed Title  ")
                  (TaskTitle.mk (of_string "Trimmed Title"))
                  (TaskListName.mk [])) eq_refl).
Defined.

(** X2.  Construction is idempotent: building a [TaskTitle] or a
    [TaskListName] again from the value a first construction stored
    succeeds and gives the same object. *)
Theorem construction_is_idempotent (s : str) (t : TaskTitle.t)
    (n : TaskListName.t) :
  (TaskTitle.init s = Ok t -> TaskTitle.init (TaskTitle.value t) = Ok t)
  /\ (TaskListName.init s = Ok n ->
      TaskListName.init (TaskListName.value n) = Ok n).
Proof.
  rewrite !TaskTitle_init_stripped, !TaskListName_init_stripped. split.
  - destruct (stripped_field 200 _ s) as [v|e] eqn:E; cbn; [|discriminate].
    intros H. inversion H; subst. cbn.
    now rewrite (stripped_field_again _ _ _ E).
  - destruct (stripped_field 100 _ s) as [v|e] eqn:E; cbn; [|discriminate].
    intros H. inversion H; subst. cbn.
    now rewrite (stripped_field_again _ _ _ E).
Qed.

(** X2, on the name ["  Trimmed Name  "]. *)
Lemma construction_is_idempotent_witness :
  exists n,
    TaskListName.init (of_string "  Trimmed Name  ") = Ok n
    /\ TaskListName.init (TaskListName.value n) = Ok n.
Proof.
  exists (TaskListName.mk (of_string "Trimmed Name")).
  split; [reflexivity|].
  exact (proj2 (construction_is_idempotent (of_string "  Trimmed Name  ")
                  (TaskTitle.mk [])
                  (TaskListName.mk (of_string "Trimmed Name"))) eq_refl).
Defined.

(* ================================================================== *)
(** * Further properties: the domain entities *)
(* ================================================================== *)

(** X3.  The two status groups partition the statuses: every status is
    completed or active and none is both; a task [is_completed] exactly
    when its status is one of the completed statuses. *)
Theorem status_groups_partition (s : TaskStatus.t) (task : Task.t) :
  (In s TaskStatus.get_completed_statuses \/ In s TaskStatus.get_active_statuses)
  /\ (In s TaskStatus.get_completed_statuses ->
      In s TaskStatus.get_active_statuses -> False)
  /\ (Task.is_completed task = true
      <-> In (Task.status task) TaskStatus.get_completed_statuses).
Proof.
  split; [|split].
  - destruct s; cbn; auto.
  - destruct s; cbn; intuition discriminate.
  - unfold Task.is_completed. destruct (Task.status task); cbn;
      intuition discriminate.
Qed.

Section ListPercentage.

Lemma full_quotient (total : Z) :
  total <> 0 -> Float.truediv total total = Ok (Float.Finite 1).
Proof.
  intros Hnz. unfold Float.truediv.
  destruct (Z.eqb_spec total 0) as [Hz|_]; [contradiction|].
  rewrite (@round_compat (inject_Z total / inject_Z total) 1); [reflexivity|].
  apply Qmult_inv_r. intros H. apply Hnz.
  unfold Qeq in H. cbn in H. lia.
Qed.

End ListPercentage.

(** X4.  A fully completed task list has the completion percentage 100;
    an empty list has the percentage 0 and is not fully completed.  The
    percentage 100 does not make a list fully completed: of 2^54 tasks
    with one not completed, the float percentage is 100. *)
Theorem fully_completed_gives_full_percentage
    (self : TaskList.t) (total completed : Z) :
  (TaskList.is_fully_completed self total completed = true ->
   TaskList.calculate_completion_percentage self total completed
   = Ok (CompletionPercentage.mk (Float.Finite 100)))
  /\ (TaskList.is_empty self total = true ->
      TaskList.calculate_completion_percentage self total completed
      = Ok (CompletionPercentage.mk (Float.Finite 0))
      /\ TaskList.is_fully_completed self total completed = false)
  /\ (TaskList.calculate_completion_percentage self (2 ^ 54) (2 ^ 54 - 1)
      = Ok (CompletionPercentage.mk (Float.Finite 100))
      /\ TaskList.is_fully_completed self (2 ^ 54) (2 ^ 54 - 1) = false).
Proof.
  unfold TaskList.calculate_completion_percentage, TaskList.is_empty,
    TaskList.is_fully_completed, CompletionPercentage.calculate_from_tasks.
  split; [|split].
  - destruct (Z.eqb_spec total 0) as [Hz|Hnz]; [discriminate|].
    intros H. apply Z.eqb_eq in H. subst completed.
    rewrite (full_quotient Hnz). reflexivity.
  - intros H. rewrite H. split; reflexivity.
  - split; vm_compute; reflexivity.
Qed.

(** X5.  A lifecycle mutation never touches the key, the task list or the
    creation time of a task, and changes no field but its own (and
    [updated_at]). *)
Theorem mutation_frame
    (now : datetime) (task task' : Task.t) (m : Task.mutation) :
  Task.apply now task m = Ok task' ->
  Task.id task' = Task.id task
  /\ Task.task_list_id task' = Task.task_list_id task
  /\ Task.created_at task' = Task.created_at task
  /\ (Task.title task' = Task.title task \/ exists x, m = Task.UpdateTitle x)
  /\ (Task.description task' = Task.description task
      \/ exists x, m = Task.UpdateDescription x)
  /\ (Task.status task' = Task.status task \/ exists x, m = Task.ChangeStatus x)
  /\ (Task.priority task' = Task.priority task
      \/ exists x, m = Task.ChangePriority x)
  /\ (Task.user_id task' = Task.user_id task
      \/ m = Task.UnassignUser \/ exists x, m = Task.AssignToUser x).
Proof.
  destruct m; cbn; intros H;
    [ unfold Task.change_status in H;
      destruct (negb _) in H; [discriminate|] | .. ];
    inversion H; subst; cbn; repeat split; eauto.
Qed.

(** X5, on a priority change. *)
Lemma mutation_frame_witness :
  let task := Task.init_default 5 fix_bug 1 in
  let task' := Task.change_priority 9 task TaskPriority.high in
  Task.status task' = Task.status task
  /\ Task.title task' = Task.title task
  /\ Task.created_at task' = Task.created_at task.
Proof.
  cbv zeta.
  destruct (@mutation_frame 9 (Task.init_default 5 fix_bug 1) _
              (Task.ChangePriority TaskPriority.high) eq_refl)
    as (_ & _ & Hc & [Ht|[x Hx]] & _ & [Hs|[y Hy]] & _);
    try discriminate.
  split; [exact Hs|]. split; [exact Ht | exact Hc].
Defined.

(** X6.  No status is terminal: from any status a task moves to any other
    status in one [change_status], and moving back restores the task up to
    [updated_at]. *)
Theorem status_round_trip
    (now1 now2 : datetime) (task : Task.t) (to : TaskStatus.t) :
  to <> Task.status task ->
  exists there back,
    Task.change_status now1 task to = Ok there
    /\ Task.status there = to
    /\ Task.change_status now2 there (Task.status task) = Ok back
    /\ back = Task.mk (Task.title task) (Task.task_list_id task) (Task.id task)
                (Task.description task) (Task.status task)
                (Task.priority task) (Task.user_id task)
                (Task.created_at task) now2.
Proof.
  intros Hne.
  assert (H1 : Task._is_valid_status_transition (Task.status task) to = true)
    by (destruct (Task.status task), to; try reflexivity; contradiction).
  assert (H2 : Task._is_valid_status_transition to (Task.status task) = true)
    by (destruct (Task.status task), to; try reflexivity; contradiction).
  eexists _, _. split; [apply change_status_valid; exact H1|].
  split; [reflexivity|]. split; [|reflexivity].
  rewrite change_status_valid; [reflexivity | exact H2].
Qed.

(** X6, from pending to completed and back. *)
Lemma status_round_trip_witness :
  let task := Task.init_default 5 fix_bug 1 in
  exists there back,
    Task.change_status 6 task TaskStatus.completed = Ok there
    /\ Task.is_completed there = true
    /\ Task.change_status 7 there TaskStatus.pending = Ok back
    /\ Task.status back = TaskStatus.pending.
Proof.
  cbv zeta.
  destruct (@status_round_trip 6 7 (Task.init_default 5 fix_bug 1)
              TaskStatus.completed ltac:(discriminate))
    as (there & back & H1 & Hs & H2 & Hb).
  exists there, back. split; [exact H1|].
  split; [unfold Task.is_completed; rewrite Hs; reflexivity|].
  split; [exact H2|]. rewrite Hb. reflexivity.
Defined.

(** X7.  A user has a name exactly when the name is set and not blank;
    the display name is then that name, otherwise the e-mail; hence the
    display name is blank only if the e-mail is. *)
Theorem display_name_is_not_blank (u : User.t) :
  (User.has_name u = true
   <-> exists n, User.name u = Some n /\ strip n <> [])
  /\ (User.has_name u = true -> User.name u = Some (User.get_display_name u))
  /\ (User.has_name u = false ->
      User.get_display_name u = UserEmail.value (User.email u))
  /\ (strip (UserEmail.value (User.email u)) <> [] ->
      strip (User.get_display_name u) <> []).
Proof.
  unfold User.get_display_name, User.has_name.
  destruct (User.name u) as [n|]; cbn.
  - destruct (str_eqb (strip n) []) eqn:E; cbn.
    + apply str_eqb_eq in E. repeat split; try discriminate; auto.
      intros (n' & Hn & Hs). inversion Hn; subst. contradiction.
    + assert (Hs : strip n <> []).
      { intros Hnil. apply str_eqb_eq in Hnil. congruence. }
      repeat split; try discriminate; eauto.
  - repeat split; try discriminate; auto.
    intros (n & Hn & _). discriminate.
Qed.

(** X7, on a user whose name is blank. *)
Lemma display_name_is_not_blank_witness :
  let u := User.init 0 (UserEmail.mk (of_string "user@example.com"))
             (Some (of_string "   ")) None None None in
  User.has_name u = false
  /\ User.get_display_name u = of_string "user@example.com".
Proof.
  cbv zeta. split; [reflexivity|].
  exact (proj1 (proj2 (proj2
           (display_name_is_not_blank
              (User.init 0 (UserEmail.mk (of_string "user@example.com"))
                 (Some (of_string "   ")) None None None)))) eq_refl).
Defined.

(* ================================================================== *)
(** * Further properties: the task queries *)
(* ================================================================== *)

Section FilteredQueries.

Variables (task_list_id user_id : option Z) (status : option TaskStatus.t)
          (priority : option TaskPriority.t).

(** The page of the filtered query, spelled out. *)
Lemma get_tasks_with_filters_exact (skip lim : nat) (s : Orm.Session) :
  TaskRepository.get_tasks_with_filters task_list_id user_id status priority
    skip lim s
  = (Ok (firstn lim (skipn skip
           (List.filter (row_matches task_list_id user_id status priority)
                        (Orm.task (Orm.working s))))),
     Orm.note (Orm.Select Orm.task_table) s).
Proof.
  unfold TaskRepository.get_tasks_with_filters, Orm.all, Orm.select,
    bind, Orm.record, modify, get, ret.
  destruct task_list_id, user_id, status, priority;
    cbn [TaskRepository.filter_if Orm.filter_ Orm.limit Orm.offset
         Orm.query_task Orm.q_where Orm.q_rows Orm.q_offset Orm.q_limit
         Orm.q_table app Orm.note Orm.working];
    (f_equal; f_equal; f_equal; f_equal; apply filter_ext; intros r;
     unfold row_matches; cbn [forallb];
     rewrite ?andb_true_r, ?andb_true_l, ?andb_assoc; reflexivity).
Qed.

Lemma firstn_add {A} (a b : nat) (l : list A) :
  firstn (a + b) l = firstn a l ++ firstn b (skipn a l).
Proof.
  revert l. induction a as [|a IH]; intros l; [reflexivity|].
  destruct l as [|x l]; cbn; [now rewrite firstn_nil|].
  now rewrite IH.
Qed.

Lemma skipn_add {A} (a b : nat) (l : list A) :
  skipn (a + b) l = skipn b (skipn a l).
Proof.
  revert l. induction a as [|a IH]; intros l; [reflexivity|].
  destruct l as [|x l]; cbn; [now rewrite skipn_nil | apply IH].
Qed.

Lemma in_firstn {A} (n : nat) (l : list A) (x : A) :
  In x (firstn n l) -> In x l.
Proof.
  intros H. rewrite <- (firstn_skipn n l). apply in_or_app. now left.
Qed.

Lemma in_skipn {A} (n : nat) (l : list A) (x : A) :
  In x (skipn n l) -> In x l.
Proof.
  intros H. rewrite <- (firstn_skipn n l). apply in_or_app. now right.
Qed.

End FilteredQueries.

(** X8.  [get_tasks_with_filters] changes nothing in the database and
    returns at most [limit] rows, each a row of the task table that passes
    every criterion given; with [skip = 0] and a [limit] not below the size
    of the table, every such row is returned. *)
Theorem filtered_query_sound_and_complete
    (task_list_id user_id : option Z) (status : option TaskStatus.t)
    (priority : option TaskPriority.t) (skip lim : nat) (s : Orm.Session) :
  let run := TaskRepository.get_tasks_with_filters task_list_id user_id
               status priority skip lim s in
  exists page,
    fst run = Ok page
    /\ same_database s (snd run)
    /\ (List.length page <= lim)%nat
    /\ (forall r, In r page ->
          In r (Orm.task (Orm.working s))
          /\ row_matches task_list_id user_id status priority r = true)
    /\ (skip = 0%nat -> (List.length (Orm.task (Orm.working s)) <= lim)%nat ->
        forall r, In r (Orm.task (Orm.working s)) ->
                  row_matches task_list_id user_id status priority r = true ->
                  In r page).
Proof.
  intros run. subst run. rewrite get_tasks_with_filters_exact. cbn [fst snd].
  eexists. split; [reflexivity|].
  split; [split; reflexivity|].
  split; [apply firstn_le_length|]. split.
  - intros r Hr. apply in_firstn, in_skipn in Hr.
    apply filter_In in Hr. exact Hr.
  - intros -> Hlim r Hin Hm. cbn [skipn].
    rewrite firstn_all2.
    + apply filter_In. auto.
    + etransitivity; [apply filter_length_le | exact Hlim].
Qed.

(** X9.  Consecutive pages tile the result: the page of [a] rows at
    [skip] followed by the page of [b] rows at [skip + a] is the page of
    [a + b] rows at [skip]. *)
Theorem pages_concatenate
    (task_list_id user_id : option Z) (status : option TaskStatus.t)
    (priority : option TaskPriority.t) (skip a b : nat) (s : Orm.Session) :
  let page := fun k n =>
    fst (TaskRepository.get_tasks_with_filters task_list_id user_id status
           priority k n s) in
  exists p1 p2,
    page skip a = Ok p1
    /\ page (skip + a)%nat b = Ok p2
    /\ page skip (a + b)%nat = Ok (p1 ++ p2).
Proof.
  intros page. subst page. cbn beta.
  rewrite !get_tasks_with_filters_exact. cbn [fst].
  eexists _, _. split; [reflexivity|]. split; [reflexivity|].
  now rewrite firstn_add, skipn_add.
Qed.

(** The single-criterion finders are the filtered query with that one
    criterion, and [get_all] and [list_all_tasks] are the filtered query
    across every list: same rows, same session. *)
Lemma finders_are_filtered_queries
    (id : Z) (st : TaskStatus.t) (pr : TaskPriority.t)
    (status : option TaskStatus.t) (priority : option TaskPriority.t)
    (user_id : option Z) (skip lim : nat) (s : Orm.Session) :
  TaskRepository.get_by_task_list_id id skip lim s
  = TaskRepository.get_tasks_with_filters (Some id) None None None skip lim s
  /\ TaskQueries.get_by_user_id id skip lim s
     = TaskRepository.get_tasks_with_filters None (Some id) None None
         skip lim s
  /\ TaskQueries.get_by_status st skip lim s
     = TaskRepository.get_tasks_with_filters None None (Some st) None
         skip lim s
  /\ TaskQueries.get_by_priority pr skip lim s
     = TaskRepository.get_tasks_with_filters None None None (Some pr)
         skip lim s
  /\ fst (TaskQueries.get_all skip lim s)
     = Ok (firstn lim (skipn skip (Orm.task (Orm.working s))))
  /\ fst (TaskRepository.get_tasks_with_filters None None None None skip lim s)
     = fst (TaskQueries.get_all skip lim s)
  /\ UseCases.list_all_tasks status priority user_id skip lim s
     = TaskRepository.get_tasks_with_filters None user_id status priority
         skip lim s.
Proof.
  assert (Hall : fst (TaskQueries.get_all skip lim s)
                 = Ok (firstn lim (skipn skip (Orm.task (Orm.working s))))).
  { unfold TaskQueries.get_all, Orm.all, Orm.select, bind, Orm.record,
      modify, get, ret. cbn. now rewrite filter_true. }
  split; [reflexivity|]. split; [reflexivity|]. split; [reflexivity|].
  split; [reflexivity|]. split; [exact Hall|]. split; [|reflexivity].
  rewrite Hall, get_tasks_with_filters_exact. cbn [fst].
  unfold row_matches. cbn [andb]. now rewrite filter_true.
Qed.

Section Finders.

Lemma status_eqb_eq (a b : TaskStatus.t) : TaskStatus.eqb a b = true <-> a = b.
Proof. destruct a, b; cbn; split; intros H; congruence. Qed.

Lemma priority_eqb_eq (a b : TaskPriority.t) :
  TaskPriority.eqb a b = true <-> a = b.
Proof. destruct a, b; cbn; split; intros H; congruence. Qed.

Lemma whole_page {A} (p : A -> bool) (lim : nat) (l : list A) (x : A) :
  (List.length l <= lim)%nat ->
  (In x (firstn lim (skipn 0 (List.filter p l))) <-> In x l /\ p x = true).
Proof.
  intros H. cbn [skipn]. rewrite firstn_all2.
  - apply filter_In.
  - etransitivity; [apply filter_length_le | exact H].
Qed.

End Finders.

(** X10.  Asked from the start for at least as many rows as the task table
    holds, [get_by_status], [get_by_priority] and [get_by_user_id] return
    exactly the tasks with that status, priority or assigned user, and
    [get_all] returns the whole table; so each task is found under one
    status and one priority only. *)
Theorem finders_select_by_value
    (st : TaskStatus.t) (pr : TaskPriority.t) (uid : Z) (lim : nat)
    (s : Orm.Session) (r : TaskRow.t) :
  (List.length (Orm.task (Orm.working s)) <= lim)%nat ->
  exists by_status by_priority by_user everything,
    fst (TaskQueries.get_by_status st 0 lim s) = Ok by_status
    /\ fst (TaskQueries.get_by_priority pr 0 lim s) = Ok by_priority
    /\ fst (TaskQueries.get_by_user_id uid 0 lim s) = Ok by_user
    /\ fst (TaskQueries.get_all 0 lim s) = Ok everything
    /\ everything = Orm.task (Orm.working s)
    /\ (In r by_status <-> In r everything /\ TaskRow.status r = st)
    /\ (In r by_priority <-> In r everything /\ TaskRow.priority r = pr)
    /\ (In r by_user <-> In r everything /\ TaskRow.user_id r = Some uid).
Proof.
  intros Hlim.
  destruct (finders_are_filtered_queries uid st pr None None None 0 lim s)
    as (_ & Hu & Hs & Hp & Ha & _).
  rewrite Hu, Hs, Hp, Ha, !get_tasks_with_filters_exact. cbn [fst].
  assert (Hall : firstn lim (skipn 0 (Orm.task (Orm.working s)))
                 = Orm.task (Orm.working s))
    by (cbn [skipn]; apply firstn_all2; exact Hlim).
  eexists _, _, _, _. repeat (split; [reflexivity|]).
  split; [exact Hall|]. rewrite Hall, !whole_page by exact Hlim.
  unfold row_matches. cbn [andb]. rewrite !andb_true_r.
  split; [|split].
  - now rewrite status_eqb_eq.
  - now rewrite priority_eqb_eq.
  - destruct (TaskRow.user_id r) as [u|].
    + rewrite Z.eqb_eq. split; intros [H1 H2]; split; congruence.
    + split; intros [H1 H2]; split; congruence.
Qed.

(** X10, on the three tasks of two lists. *)
Lemma finders_select_by_value_witness :
  exists by_status,
    fst (TaskQueries.get_by_status TaskStatus.pending 0 10 two_lists)
    = Ok by_status
    /\ List.map TaskRow.id by_status = [2; 3].
Proof.
  destruct (@finders_select_by_value TaskStatus.pending TaskPriority.high 7
              10 two_lists (task_row 2 TaskStatus.pending)
              ltac:(cbn; lia))
    as (by_status & _ & _ & _ & Hs & _).
  exists by_status. split; [exact Hs|].
  revert Hs. vm_compute. intros H. inversion H. reflexivity.
Defined.

(* ================================================================== *)
(** * Further properties: the listing *)
(* ================================================================== *)

Section Rounding.

Lemma round_half_even_range (y : Q) :
  (0 <= y)%Q -> (y <= 10000)%Q ->
  0 <= round_half_even y <= 10000.
Proof.
  intros H0 H1.
  assert (Hf0 : 0 <= Qfloor y).
  { change 0 with (Qfloor (inject_Z 0)) at 1.
    rewrite Qfloor_Z. change 0 with (Qfloor 0%Q).
    apply Qfloor_resp_le. exact H0. }
  assert (Hf1 : Qfloor y <= 10000).
  { rewrite <- (Qfloor_Z 10000). apply Qfloor_resp_le. exact H1. }
  unfold round_half_even.
  destruct (Z.eq_dec (Qfloor y) 10000) as [Heq|Hne].
  - assert (Hlt : (y - inject_Z (Qfloor y) < 1 # 2)%Q).
    { rewrite Heq. apply Qle_lt_trans with (y := 0%Q); [|reflexivity].
      apply (Qplus_le_l _ _ 10000). ring_simplify. exact H1. }
    destruct (Qcompare (y - inject_Z (Qfloor y)) (1 # 2)) eqn:E.
    + apply Qeq_alt in E. rewrite E in Hlt.
      exfalso. exact (Qlt_irrefl _ Hlt).
    + lia.
    + apply Qgt_alt in E. exfalso.
      exact (Qlt_irrefl _ (Qlt_trans _ _ _ Hlt E)).
  - destruct (Qcompare _ _); [destruct (Z.even _)| |]; lia.
Qed.

Lemma round2_range (x : Q) :
  (0 <= x)%Q -> (x <= 100)%Q ->
  (0 <= round2 x)%Q /\ (round2 x <= 100)%Q.
Proof.
  intros H0 H1. unfold round2.
  assert (Ha : (0 <= x * 100)%Q)
    by (apply Qmult_le_0_compat; [exact H0 | discriminate]).
  assert (Hb : (x * 100 <= 10000)%Q).
  { setoid_replace (10000 : Q) with (100 * 100)%Q by reflexivity.
    apply Qmult_le_compat_r; [exact H1 | discriminate]. }
  destruct (round_half_even_range Ha Hb) as [Hr0 Hr1].
  split.
  - apply Qle_shift_div_l; [reflexivity|]. rewrite Qmult_0_l.
    change (inject_Z 0 <= inject_Z (round_half_even (x * 100)))%Q.
    rewrite <- Zle_Qle. exact Hr0.
  - apply Qle_shift_div_r; [reflexivity|].
    change (inject_Z (round_half_even (x * 100)) <= inject_Z 10000)%Q.
    rewrite <- Zle_Qle. exact Hr1.
Qed.

End Rounding.

Section ListingRuns.

Variables (task_list_id : Z) (status : option TaskStatus.t)
          (priority : option TaskPriority.t) (user_id : option Z)
          (skip lim : nat) (s : Orm.Session).

(** The listing of an existing list, spelled out. *)
Lemma list_tasks_run (tl : TaskListRow.t) :
  List.find (fun r => TaskListRow.id r =? task_list_id)
            (Orm.task_list (Orm.working s)) = Some tl ->
  let page :=
    firstn lim (skipn skip
      (List.filter (row_matches (Some task_list_id) user_id status priority)
                   (Orm.task (Orm.working s)))) in
  let counted :=
    firstn TaskRepository.default_limit
           (tasks_of_list task_list_id (Orm.working s)) in
  let total := List.length counted in
  let completed := List.length (List.filter is_completed_row counted) in
  UseCases.list_tasks task_list_id status priority user_id skip lim s
  = (Ok (TaskListing.mk page total completed
           (round2 match total with
                   | O => 0%Q
                   | _ => (inject_Z (Z.of_nat completed)
                           / inject_Z (Z.of_nat total) * 100)%Q
                   end)
           (Pagination.mk skip lim (List.length page))),
     Orm.note (Orm.Select Orm.task_table)
       (Orm.note (Orm.Select Orm.task_table)
          (Orm.note (Orm.Select Orm.task_list_table) s))).
Proof.
  intros H page counted total completed.
  unfold UseCases.list_tasks, TaskListRepository.get_by_id, bind.
  rewrite first_task_list, H.
  rewrite get_tasks_with_filters_exact, get_by_task_list_id_spec.
  reflexivity.
Qed.

End ListingRuns.

(** X11.  [list_tasks] only reads: whether it returns or raises, the
    working and the committed database are those it was given. *)
Theorem list_tasks_reads_only
    (task_list_id : Z) (status : option TaskStatus.t)
    (priority : option TaskPriority.t) (user_id : option Z)
    (skip lim : nat) (s : Orm.Session) :
  let run := UseCases.list_tasks task_list_id status priority user_id
               skip lim s in
  same_database s (snd run) /\ Orm.modified (snd run) = Orm.modified s.
Proof.
  intros run. subst run.
  destruct (List.find (fun r => TaskListRow.id r =? task_list_id)
              (Orm.task_list (Orm.working s))) as [tl|] eqn:Hf.
  - rewrite (list_tasks_run _ status priority user_id skip lim _ Hf).
    repeat split.
  - rewrite (list_tasks_missing _ status priority user_id skip lim _ Hf).
    repeat split.
Qed.

(** X12.  Whatever [list_tasks] returns is coherent: [completed <= total
    <= 100], [percent_complete] lies in [0, 100], [returned] is the size of
    the page and at most [limit], and every task of the page belongs to the
    list and passes the filters given. *)
Theorem list_tasks_result_is_coherent
    (task_list_id : Z) (status : option TaskStatus.t)
    (priority : option TaskPriority.t) (user_id : option Z)
    (skip lim : nat) (s : Orm.Session) (r : TaskListing.t) :
  fst (UseCases.list_tasks task_list_id status priority user_id skip lim s)
  = Ok r ->
  (TaskListing.completed r <= TaskListing.total r <= 100)%nat
  /\ (0 <= TaskListing.percent_complete r)%Q
  /\ (TaskListing.percent_complete r <= 100)%Q
  /\ Pagination.returned (TaskListing.pagination r)
     = List.length (TaskListing.tasks r)
  /\ (List.length (TaskListing.tasks r) <= lim)%nat
  /\ (forall t, In t (TaskListing.tasks r) ->
        In t (Orm.task (Orm.working s))
        /\ TaskRow.task_list_id t = task_list_id
        /\ row_matches None user_id status priority t = true).
Proof.
  destruct (List.find (fun r => TaskListRow.id r =? task_list_id)
              (Orm.task_list (Orm.working s))) as [tl|] eqn:Hf.
  - rewrite (list_tasks_run _ status priority user_id skip lim _ Hf).
    cbn [fst].
    set (counted := firstn TaskRepository.default_limit
                      (tasks_of_list task_list_id (Orm.working s))).
    intros H. injection H as H. subst r.
    cbn [TaskListing.completed TaskListing.total TaskListing.percent_complete
         TaskListing.pagination TaskListing.tasks Pagination.returned].
    assert (Hc : (List.length (List.filter is_completed_row counted)
                  <= List.length counted)%nat) by apply filter_length_le.
    assert (Ht : (List.length counted <= 100)%nat)
      by (subst counted; apply firstn_le_length).
    split; [lia|].
    assert (Hq : (0 <= match List.length counted with
                       | O => 0
                       | _ => inject_Z (Z.of_nat (List.length
                                (List.filter is_completed_row counted)))
                              / inject_Z (Z.of_nat (List.length counted)) * 100
                       end)%Q
                 /\ (match List.length counted with
                     | O => 0
                     | _ => inject_Z (Z.of_nat (List.length
                              (List.filter is_completed_row counted)))
                            / inject_Z (Z.of_nat (List.length counted)) * 100
                     end <= 100)%Q).
    { destruct (List.length counted) as [|k] eqn:Hk.
      - split; discriminate.
      - apply ratio_bounds; lia. }
    destruct Hq as [Hq0 Hq1].
    destruct (round2_range Hq0 Hq1) as [Hr0 Hr1].
    split; [exact Hr0|]. split; [exact Hr1|]. split; [reflexivity|].
    split; [apply firstn_le_length|].
    intros t Hin. apply in_firstn, in_skipn in Hin.
    apply filter_In in Hin. destruct Hin as [Hin Hm].
    unfold row_matches in Hm |- *. cbn [andb] in *.
    apply andb_true_iff in Hm. destruct Hm as [Hm Hp].
    apply andb_true_iff in Hm. destruct Hm as [Hm Hs].
    apply andb_true_iff in Hm. destruct Hm as [Hl Hu].
    split; [exact Hin|]. split; [now apply Z.eqb_eq|].
    now rewrite Hu, Hs, Hp.
  - rewrite (list_tasks_missing _ status priority user_id skip lim _ Hf).
    discriminate.
Qed.

(** X12, on the list of two lists and three tasks, filtered by status. *)
Lemma list_tasks_result_is_coherent_witness :
  exists r,
    fst (UseCases.list_tasks 1 (Some TaskStatus.pending) None None 0 10
           two_lists) = Ok r
    /\ List.map TaskRow.id (TaskListing.tasks r) = [2]
    /\ (TaskListing.completed r <= TaskListing.total r <= 100)%nat.
Proof.
  eexists. split; [reflexivity|]. split; [reflexivity|].
  exact (proj1 (@list_tasks_result_is_coherent 1 (Some TaskStatus.pending)
                  None None 0%nat 10%nat two_lists _ eq_refl)).
Defined.

(* ================================================================== *)
(** * Further properties: creating *)
(* ================================================================== *)

Section Creating.

Lemma find_fresh_task (l : list TaskRow.t) (row : TaskRow.t) :
  (forall r, In r l -> TaskRow.id r < TaskRow.id row) ->
  List.find (fun r => TaskRow.id r =? TaskRow.id row) (l ++ [row]) = Some row.
Proof.
  intros Hold. induction l as [|a l IH]; cbn.
  - now rewrite Z.eqb_refl.
  - destruct (Z.eqb_spec (TaskRow.id a) (TaskRow.id row)) as [E|_].
    + specialize (Hold a (or_introl eq_refl)). lia.
    + apply IH. intros r Hr. apply Hold. now right.
Qed.

Lemma nodup_snoc {A} (l : list A) (x : A) :
  NoDup l -> ~ In x l -> NoDup (l ++ [x]).
Proof.
  intros Hl Hx. induction l as [|a l IH]; cbn.
  - constructor; [intros [] | constructor].
  - inversion Hl; subst. constructor.
    + intros Hin. apply in_app_or in Hin. destruct Hin as [Hin|[->|[]]].
      * contradiction.
      * apply Hx. now left.
    + apply IH; [assumption|]. intros Hin. apply Hx. now right.
Qed.

(** [create_task] on a list that exists, for an unassigned task. *)
Lemma create_task_found (task_list_id : Z) (title : str)
    (description : option str) (priority : TaskPriority.t)
    (s : Orm.Session) (tl : TaskListRow.t) :
  List.find (fun r => TaskListRow.id r =? task_list_id)
            (Orm.task_list (Orm.working s)) = Some tl ->
  let row := TaskRow.mk
               (Orm.next_id (List.map TaskRow.id (Orm.task (Orm.working s))))
               title description TaskStatus.pending priority
               (Orm.clock s) (Orm.clock s) task_list_id None in
  exists s',
    TaskUseCases.create_task task_list_id title description priority None s
    = (Ok row, s')
    /\ Orm.working s' = Orm.committed s'
    /\ Orm.task_list (Orm.committed s') = Orm.task_list (Orm.working s)
    /\ List.map TaskRow.id (Orm.task (Orm.committed s'))
       = List.map TaskRow.id (Orm.task (Orm.working s)) ++ [TaskRow.id row]
    /\ List.find (fun r => TaskRow.id r =? TaskRow.id row)
                 (Orm.task (Orm.committed s')) = Some row.
Proof.
  intros Hfind row.
  unfold TaskUseCases.create_task, TaskListRepository.get_by_id, bind.
  rewrite first_task_list, Hfind.
  unfold TaskWrites.create, OrmWrites.add_task, Orm.commit, Orm.refresh_task,
    Orm.record, bind, get, put, modify, ret.
  cbn [Orm.note Orm.working Orm.committed Orm.clock Orm.events Orm.modified
       Orm.task_list Orm.task fst snd].
  fold row.
  set (stamp := fun r : TaskRow.t =>
                  if existsb (Z.eqb (TaskRow.id r)) (Orm.modified s)
                  then TaskRow.with_updated_at r (Orm.clock s) else r).
  assert (Hid : forall r, TaskRow.id (stamp r) = TaskRow.id r).
  { intros r. subst stamp. cbn beta.
    destruct (existsb (Z.eqb (TaskRow.id r)) _); reflexivity. }
  assert (Hrow : stamp row = row).
  { subst stamp. cbn beta.
    destruct (existsb (Z.eqb (TaskRow.id row)) _); reflexivity. }
  assert (Hkey : List.find (fun r => TaskRow.id r =? TaskRow.id row)
                   (List.map stamp (Orm.task (Orm.working s) ++ [row]))
                 = Some row).
  { rewrite map_app. cbn [List.map]. rewrite Hrow.
    apply find_fresh_task. intros r Hr.
    apply in_map_iff in Hr. destruct Hr as (r0 & <- & Hr0).
    rewrite Hid. subst row. cbn [TaskRow.id].
    apply next_id_fresh. now apply in_map. }
  change (TaskRow.id row) with
    (Orm.next_id (List.map TaskRow.id (Orm.task (Orm.working s)))) in Hkey.
  rewrite Hkey. unfold Orm.refreshed, ret.
  eexists. split; [reflexivity|].
  cbn [Orm.note Orm.working Orm.committed Orm.task_list Orm.task].
  split; [reflexivity|]. split; [reflexivity|]. split; [|exact Hkey].
  rewrite map_map, map_app. cbn [List.map]. rewrite Hid. f_equal.
  apply map_ext. exact Hid.
Qed.

End Creating.

(** X13.  [create_task] on a task list that does not exist raises
    [NotFoundException] and writes nothing; on one that exists it inserts
    an unassigned task with status pending and a key no task bore, which is
    committed, and [get_task] on that key returns the task created. *)
Theorem create_task_then_get
    (task_list_id : Z) (title : str) (description : option str)
    (priority : TaskPriority.t) (s : Orm.Session) :
  let run := TaskUseCases.create_task task_list_id title description
               priority None s in
  ((forall r, In r (Orm.task_list (Orm.working s)) ->
              TaskListRow.id r <> task_list_id) ->
   (exists m, fst run = Raise (NotFoundException m))
   /\ same_database s (snd run))
  /\ ((exists r, In r (Orm.task_list (Orm.working s))
                 /\ TaskListRow.id r = task_list_id) ->
      exists row,
        fst run = Ok row
        /\ TaskRow.status row = TaskStatus.pending
        /\ TaskRow.task_list_id row = task_list_id
        /\ TaskRow.title row = title
        /\ TaskRow.user_id row = None
        /\ (forall r, In r (Orm.task (Orm.working s)) ->
                      TaskRow.id r <> TaskRow.id row)
        /\ In row (Orm.task (Orm.committed (snd run)))
        /\ fst (TaskUseCases.get_task (TaskRow.id row) (snd run)) = Ok row).
Proof.
  intros run. subst run.
  destruct (List.find (fun r => TaskListRow.id r =? task_list_id)
              (Orm.task_list (Orm.working s))) as [tl|] eqn:Hf.
  - destruct (create_task_found task_list_id title description priority s Hf)
      as (s' & Hrun & Hwc & _ & _ & Hkey).
    rewrite Hrun. cbn [fst snd]. split.
    + intros Hno. exfalso. apply find_some in Hf. destruct Hf as [Hin Hid].
      apply Z.eqb_eq in Hid. exact (Hno tl Hin Hid).
    + intros _. eexists. split; [reflexivity|].
      cbn [TaskRow.status TaskRow.task_list_id TaskRow.title TaskRow.user_id
           TaskRow.id].
      repeat (split; [reflexivity|]). split; [|split].
      * intros r Hr. apply Z.lt_neq. apply next_id_fresh. now apply in_map.
      * apply find_some in Hkey. tauto.
      * unfold TaskUseCases.get_task, TaskRepository.get_by_id, bind.
        rewrite first_task, Hwc.
        cbn [TaskRow.id] in Hkey. rewrite Hkey. reflexivity.
  - split.
    + intros _.
      unfold TaskUseCases.create_task, TaskListRepository.get_by_id, bind.
      rewrite first_task_list, Hf. cbn. split; [eauto | split; reflexivity].
    + intros (r & Hin & Hid). exfalso.
      pose proof (find_none _ _ Hf r Hin) as Hno. cbn in Hno.
      apply Z.eqb_neq in Hno. contradiction.
Qed.

(** X13, on the list "Sprint 1" holding four tasks. *)
Lemma create_task_then_get_witness :
  exists row,
    fst (TaskUseCases.create_task 1 (of_string "Fix bug") None
           TaskPriority.medium None four_tasks) = Ok row
    /\ TaskRow.id row = 5
    /\ TaskRow.status row = TaskStatus.pending.
Proof.
  destruct (proj2 (create_task_then_get 1 (of_string "Fix bug") None
                     TaskPriority.medium four_tasks))
    as (row & Hrun & Hst & _).
  { exists sprint_1. split; [now left | reflexivity]. }
  exists row. split; [exact Hrun|]. split; [|exact Hst].
  revert Hrun. vm_compute. intros H. inversion H. reflexivity.
Defined.

(** X14.  Creating a task list keeps the names and the keys of the task
    lists pairwise distinct. *)
Theorem create_task_list_keeps_uniqueness
    (name : str) (s : Orm.Session) (row : TaskListRow.t) (s' : Orm.Session) :
  unique_names (Orm.working s) ->
  unique_keys (Orm.working s) ->
  UseCases.create_task_list name s = (Ok row, s') ->
  unique_names (Orm.committed s') /\ unique_keys (Orm.committed s')
  /\ unique_names (Orm.working s') /\ unique_keys (Orm.working s').
Proof.
  intros Hn Hk Hrun.
  destruct (List.find (fun r => str_eqb (TaskListRow.name r) name)
              (Orm.task_list (Orm.working s))) as [x|] eqn:Hf.
  - rewrite (create_task_list_conflict _ _ Hf) in Hrun. discriminate.
  - destruct (create_task_list_fresh _ _ Hf) as (s1 & Hrun1 & Hcom & Hwork).
    rewrite Hrun1 in Hrun. injection Hrun as Hrow Hs. subst s1.
    unfold unique_names, unique_keys in *. rewrite Hcom, Hwork, !map_app.
    cbn [List.map TaskListRow.name TaskListRow.id].
    assert (Hfresh_name : ~ In name (List.map TaskListRow.name
                                       (Orm.task_list (Orm.working s)))).
    { intros Hin. apply in_map_iff in Hin. destruct Hin as (r & Hr & Hin).
      pose proof (find_none _ _ Hf r Hin) as Hno. cbn in Hno.
      apply str_eqb_eq in Hr. congruence. }
    assert (Hfresh_key :
              ~ In (Orm.next_id (List.map TaskListRow.id
                                   (Orm.task_list (Orm.working s))))
                   (List.map TaskListRow.id (Orm.task_list (Orm.working s)))).
    { intros Hin. apply next_id_fresh in Hin. lia. }
    repeat split; apply nodup_snoc; assumption.
Qed.

(** X14, on the creation of "Backlog" beside "Sprint 1". *)
Lemma create_task_list_keeps_uniqueness_witness :
  exists row s',
    UseCases.create_task_list (of_string "Backlog") four_tasks = (Ok row, s')
    /\ unique_names (Orm.committed s').
Proof.
  eexists _, _. split; [reflexivity|].
  refine (proj1 (@create_task_list_keeps_uniqueness (of_string "Backlog")
                   four_tasks _ _ _ _ eq_refl)).
  - repeat constructor; intros [].
  - repeat constructor; intros [].
Defined.

(** X15.  A name can be created once: right after [create_task_list] has
    succeeded, a second call with the same name raises [ConflictException]
    and writes nothing. *)
Theorem create_task_list_twice
    (name : str) (s : Orm.Session) (row : TaskListRow.t) (s' : Orm.Session) :
  UseCases.create_task_list name s = (Ok row, s') ->
  (exists m, fst (UseCases.create_task_list name s')
             = Raise (ConflictException m))
  /\ same_database s' (snd (UseCases.create_task_list name s')).
Proof.
  intros Hrun.
  destruct (List.find (fun r => str_eqb (TaskListRow.name r) name)
              (Orm.task_list (Orm.working s))) as [x|] eqn:Hf.
  - rewrite (create_task_list_conflict _ _ Hf) in Hrun. discriminate.
  - destruct (create_task_list_fresh _ _ Hf) as (s1 & Hrun1 & _ & Hwork).
    rewrite Hrun1 in Hrun. injection Hrun as Hrow Hs. subst s1.
    destruct (List.find (fun r => str_eqb (TaskListRow.name r) name)
                (Orm.task_list (Orm.working s'))) as [y|] eqn:Hf'.
    + rewrite (create_task_list_conflict _ _ Hf'). cbn.
      split; [eauto | split; reflexivity].
    + exfalso.
      assert (Hin : In row (Orm.task_list (Orm.working s'))).
      { rewrite Hwork, Hrow. apply in_or_app. right. now left. }
      pose proof (find_none _ _ Hf' row Hin) as Hno. cbn beta in Hno.
      rewrite <- Hrow in Hno. cbn [TaskListRow.name] in Hno.
      assert (str_eqb name name = true) by now apply str_eqb_eq.
      congruence.
Qed.

(** X15, on an empty database. *)
Lemma create_task_list_twice_witness :
  exists row s' m,
    UseCases.create_task_list (of_string "Sprint 1") empty_session
    = (Ok row, s')
    /\ fst (UseCases.create_task_list (of_string "Sprint 1") s')
       = Raise (ConflictException m).
Proof.
  eexists _, _.
  destruct (@create_task_list_twice (of_string "Sprint 1") empty_session
              _ _ eq_refl) as ([m Hm] & _).
  exists m. split; [reflexivity | exact Hm].
Defined.

(* ================================================================== *)
(** * Further properties: deleting *)
(* ================================================================== *)

Section Deleting.

Variable s : Orm.Session.

Let stamp : TaskRow.t -> TaskRow.t :=
  fun r => if existsb (Z.eqb (TaskRow.id r)) (Orm.modified s)
           then TaskRow.with_updated_at r (Orm.clock s) else r.

Lemma stamp_keeps :
  forall r, TaskRow.id (stamp r) = TaskRow.id r
            /\ TaskRow.task_list_id (stamp r) = TaskRow.task_list_id r.
Proof.
  intros r. unfold stamp.
  destruct (existsb (Z.eqb (TaskRow.id r)) _); split; reflexivity.
Qed.

Lemma find_filtered_out {A} (p : A -> bool) (l : list A) :
  List.find p (List.filter (fun r => negb (p r)) l) = None.
Proof.
  apply find_none_iff. intros a Ha. apply filter_In in Ha.
  destruct Ha as [_ Ha]. now apply negb_true_iff in Ha.
Qed.

(** [delete] on a task whose key is found. *)
Lemma task_delete_found (entity_id : Z) (e : TaskRow.t) :
  List.find (fun r => TaskRow.id r =? entity_id) (Orm.task (Orm.working s))
  = Some e ->
  exists s',
    TaskWrites.delete entity_id s = (Ok true, s')
    /\ Orm.committed s' = Orm.working s'
    /\ Orm.task_list (Orm.working s') = Orm.task_list (Orm.working s)
    /\ Orm.task (Orm.working s')
       = List.map stamp
           (List.filter (fun r => negb (TaskRow.id r =? entity_id))
                        (Orm.task (Orm.working s))).
Proof.
  intros Hfind. destruct (find_key _ _ Hfind) as [Hid _].
  unfold TaskWrites.delete, TaskRepository.get_by_id, bind.
  rewrite first_task, Hfind.
  unfold OrmWrites.delete_task, Orm.commit, Orm.record, bind, get, put,
    modify, ret.
  cbn [Orm.note Orm.working Orm.committed Orm.clock Orm.events Orm.modified
       Orm.task_list Orm.task fst snd].
  rewrite Hid. eexists. split; [reflexivity|].
  cbn [Orm.note Orm.working Orm.committed Orm.task_list Orm.task].
  repeat split.
Qed.

Lemma task_delete_missing (entity_id : Z) :
  List.find (fun r => TaskRow.id r =? entity_id) (Orm.task (Orm.working s))
  = None ->
  TaskWrites.delete entity_id s
  = (Ok false, Orm.note (Orm.Select Orm.task_table) s).
Proof.
  intros Hfind. unfold TaskWrites.delete, TaskRepository.get_by_id, bind.
  rewrite first_task, Hfind. reflexivity.
Qed.

(** [delete] on a task list whose key is found. *)
Lemma task_list_delete_found (entity_id : Z) (e : TaskListRow.t) :
  List.find (fun r => TaskListRow.id r =? entity_id)
            (Orm.task_list (Orm.working s)) = Some e ->
  exists s',
    TaskListWrites.delete entity_id s = (Ok true, s')
    /\ Orm.committed s' = Orm.working s'
    /\ Orm.task_list (Orm.working s')
       = List.filter (fun r => negb (TaskListRow.id r =? entity_id))
                     (Orm.task_list (Orm.working s))
    /\ Orm.task (Orm.working s')
       = List.map stamp
           (List.filter (fun r => negb (TaskRow.task_list_id r =? entity_id))
                        (Orm.task (Orm.working s))).
Proof.
  intros Hfind.
  assert (Hid : TaskListRow.id e = entity_id).
  { apply find_some in Hfind. destruct Hfind as [_ H]. now apply Z.eqb_eq. }
  unfold TaskListWrites.delete, TaskListRepository.get_by_id, bind.
  rewrite first_task_list, Hfind.
  unfold OrmWrites.delete_task_list, Orm.commit, Orm.record, bind, get, put,
    modify, ret.
  cbn [Orm.note Orm.working Orm.committed Orm.clock Orm.events Orm.modified
       Orm.task_list Orm.task fst snd].
  rewrite Hid. eexists. split; [reflexivity|].
  cbn [Orm.note Orm.working Orm.committed Orm.task_list Orm.task].
  repeat split.
Qed.

Lemma task_list_delete_missing (entity_id : Z) :
  List.find (fun r => TaskListRow.id r =? entity_id)
            (Orm.task_list (Orm.working s)) = None ->
  TaskListWrites.delete entity_id s
  = (Ok false, Orm.note (Orm.Select Orm.task_list_table) s).
Proof.
  intros Hfind. unfold TaskListWrites.delete, TaskListRepository.get_by_id, bind.
  rewrite first_task_list, Hfind. reflexivity.
Qed.

Lemma keys_after_filter (p : Z -> bool) (l : list TaskRow.t) :
  List.map TaskRow.id
    (List.map stamp (List.filter (fun r => p (TaskRow.id r)) l))
  = List.filter p (List.map TaskRow.id l).
Proof.
  induction l as [|a l IH]; cbn; [reflexivity|].
  destruct (p (TaskRow.id a)); cbn; [|exact IH].
  rewrite (proj1 (stamp_keeps a)). now rewrite IH.
Qed.

End Deleting.

(** X16.  [BaseRepository.delete] on tasks returns [True] exactly when a
    task bears the key; it then commits a task table whose keys are the
    former ones without that key, and leaves the task lists alone; when it
    returns [False] nothing is written.  In both cases a lookup of the key
    afterwards finds nothing. *)
Theorem delete_task_removes_the_key (entity_id : Z) (s : Orm.Session) :
  let run := TaskWrites.delete entity_id s in
  exists deleted,
    fst run = Ok deleted
    /\ (deleted = true
        <-> exists r, In r (Orm.task (Orm.working s))
                      /\ TaskRow.id r = entity_id)
    /\ (deleted = false -> same_database s (snd run))
    /\ (deleted = true -> Orm.committed (snd run) = Orm.working (snd run))
    /\ List.map TaskRow.id (Orm.task (Orm.working (snd run)))
       = List.filter (fun k => negb (k =? entity_id))
                     (List.map TaskRow.id (Orm.task (Orm.working s)))
    /\ Orm.task_list (Orm.working (snd run)) = Orm.task_list (Orm.working s)
    /\ fst (TaskRepository.get_by_id entity_id (snd run)) = Ok None.
Proof.
  intros run. subst run.
  destruct (List.find (fun r => TaskRow.id r =? entity_id)
              (Orm.task (Orm.working s))) as [e|] eqn:Hf.
  - destruct (task_delete_found s entity_id Hf)
      as (s' & Hrun & Hcw & Hlists & Htasks).
    rewrite Hrun. cbn [fst snd]. exists true.
    split; [reflexivity|]. split; [|split; [discriminate|]].
    { split; [|reflexivity]. intros _. exists e.
      destruct (find_key _ _ Hf). auto. }
    split; [intros _; exact Hcw|]. split; [|split; [exact Hlists|]].
    + rewrite Htasks.
      exact (keys_after_filter s (fun k => negb (k =? entity_id)) _).
    + unfold TaskRepository.get_by_id. rewrite first_task, Htasks. cbn [fst].
      f_equal. apply find_none_iff. intros a Ha.
      apply in_map_iff in Ha. destruct Ha as (a0 & <- & Ha0).
      apply filter_In in Ha0. destruct Ha0 as [_ Ha0].
      rewrite (proj1 (stamp_keeps s a0)). now apply negb_true_iff in Ha0.
  - rewrite (task_delete_missing s entity_id Hf). cbn [fst snd]. exists false.
    split; [reflexivity|]. split; [|split; [intros _; split; reflexivity|]].
    { split; [discriminate|]. intros (r & Hin & Hid). exfalso.
      pose proof (find_none _ _ Hf r Hin) as Hno. cbn in Hno.
      apply Z.eqb_neq in Hno. contradiction. }
    split; [discriminate|]. cbn [Orm.note Orm.working].
    split; [|split; [reflexivity|]].
    + symmetry. apply forallb_filter_id. apply forallb_forall.
      intros k Hk. apply in_map_iff in Hk. destruct Hk as (r & <- & Hin).
      pose proof (find_none _ _ Hf r Hin) as Hno. cbn in Hno. now rewrite Hno.
    + unfold TaskRepository.get_by_id. rewrite first_task. cbn [fst].
      cbn [Orm.note Orm.working]. now rewrite Hf.
Qed.

(** X17.  Deleting a task list cascades: when [BaseRepository.delete]
    finds the list it commits a database in which no task list bears the
    key, no task belongs to that list, and the tasks of the other lists
    keep their keys; when it does not find it, it returns [False] and
    writes nothing. *)
Theorem delete_task_list_cascades (entity_id : Z) (s : Orm.Session) :
  let run := TaskListWrites.delete entity_id s in
  exists deleted,
    fst run = Ok deleted
    /\ (deleted = true
        <-> exists r, In r (Orm.task_list (Orm.working s))
                      /\ TaskListRow.id r = entity_id)
    /\ (deleted = false -> same_database s (snd run))
    /\ (deleted = true ->
        Orm.committed (snd run) = Orm.working (snd run)
        /\ Orm.task_list (Orm.committed (snd run))
           = List.filter (fun r => negb (TaskListRow.id r =? entity_id))
                         (Orm.task_list (Orm.working s))
        /\ (forall t, In t (Orm.task (Orm.committed (snd run))) ->
                      TaskRow.task_list_id t <> entity_id)
        /\ List.map TaskRow.id (Orm.task (Orm.committed (snd run)))
           = List.map TaskRow.id
               (List.filter
                  (fun r => negb (TaskRow.task_list_id r =? entity_id))
                  (Orm.task (Orm.working s)))).
Proof.
  intros run. subst run.
  destruct (List.find (fun r => TaskListRow.id r =? entity_id)
              (Orm.task_list (Orm.working s))) as [e|] eqn:Hf.
  - destruct (task_list_delete_found s entity_id Hf)
      as (s' & Hrun & Hcw & Hlists & Htasks).
    rewrite Hrun. cbn [fst snd]. exists true.
    split; [reflexivity|]. split; [|split; [discriminate|]].
    { split; [|reflexivity]. intros _. exists e.
      apply find_some in Hf. destruct Hf as [Hin Hid].
      apply Z.eqb_eq in Hid. auto. }
    intros _. rewrite Hcw, Hlists, Htasks.
    split; [reflexivity|]. split; [reflexivity|]. split.
    + intros t Ht. apply in_map_iff in Ht. destruct Ht as (t0 & <- & Ht0).
      apply filter_In in Ht0. destruct Ht0 as [_ Ht0].
      rewrite (proj2 (stamp_keeps s t0)).
      apply negb_true_iff in Ht0. now apply Z.eqb_neq.
    + rewrite map_map. apply map_ext. intros a.
      exact (proj1 (stamp_keeps s a)).
  - rewrite (task_list_delete_missing s entity_id Hf). cbn [fst snd].
    exists false. split; [reflexivity|].
    split; [|split; [intros _; split; reflexivity | discriminate]].
    split; [discriminate|]. intros (r & Hin & Hid). exfalso.
    pose proof (find_none _ _ Hf r Hin) as Hno. cbn in Hno.
    apply Z.eqb_neq in Hno. contradiction.
Qed.

(** X18.  The delete endpoints answer 404 exactly when the repository's
    [delete] would return [False], and otherwise leave the database
    [delete] leaves. *)
Theorem delete_endpoints_agree_with_delete (key : Z) (s : Orm.Session) :
  (fst (TaskWrites.delete key s) = Ok false
   <-> exists d, fst (TaskEndpoints.delete_task_endpoint key s)
                 = HTTPException 404 d)
  /\ (fst (TaskWrites.delete key s) = Ok true
      <-> exists m, fst (TaskEndpoints.delete_task_endpoint key s)
                    = Returned m)
  /\ same_database (snd (TaskWrites.delete key s))
                   (snd (TaskEndpoints.delete_task_endpoint key s))
  /\ (fst (TaskListWrites.delete key s) = Ok false
      <-> exists d, fst (TaskListEndpoints.delete_task_list_endpoint key s)
                    = HTTPException 404 d)
  /\ (fst (TaskListWrites.delete key s) = Ok true
      <-> exists m, fst (TaskListEndpoints.delete_task_list_endpoint key s)
                    = Returned m)
  /\ same_database (snd (TaskListWrites.delete key s))
                   (snd (TaskListEndpoints.delete_task_list_endpoint key s)).
Proof.
  unfold TaskEndpoints.delete_task_endpoint, TaskEndpoints.endpoint,
    TaskListEndpoints.delete_task_list_endpoint, TaskListEndpoints.endpoint,
    TaskUseCases.get_task, TaskWrites.delete, TaskListWrites.delete,
    TaskRepository.get_by_id, TaskListRepository.get_by_id, bind.
  rewrite first_task, first_task_list.
  destruct (List.find (fun r => TaskRow.id r =? key)
              (Orm.task (Orm.working s))) as [e|];
    destruct (List.find (fun r => TaskListRow.id r =? key)
                (Orm.task_list (Orm.working s))) as [l|];
    cbn; repeat split; try discriminate; eauto;
    try (intros [d H]; discriminate).
Qed.

(* ================================================================== *)
(** * Further properties: renaming a task list *)
(* ================================================================== *)

Section Renaming.

Variables (pk : Z) (new_name : str) (now : datetime).

Let rename : TaskListRow.t -> TaskListRow.t :=
  fun r => if TaskListRow.id r =? pk then
             if str_eqb (TaskListRow.name r) new_name then r
             else TaskListRow.mk (TaskListRow.id r) new_name
                    (TaskListRow.created_at r) now
           else r.

Lemma rename_id (r : TaskListRow.t) :
  TaskListRow.id (rename r) = TaskListRow.id r.
Proof.
  unfold rename. destruct (TaskListRow.id r =? pk); [|reflexivity].
  destruct (str_eqb _ _); reflexivity.
Qed.

Lemma rename_name (r : TaskListRow.t) :
  (TaskListRow.id r = pk /\ TaskListRow.name (rename r) = new_name)
  \/ (TaskListRow.id r <> pk /\ rename r = r).
Proof.
  unfold rename. destruct (Z.eqb_spec (TaskListRow.id r) pk) as [E|E].
  - left. split; [exact E|].
    destruct (str_eqb _ _) eqn:Hs; [now apply str_eqb_eq | reflexivity].
  - right. auto.
Qed.

Lemma rename_keeps_names_distinct (l : list TaskListRow.t) :
  NoDup (List.map TaskListRow.id l) ->
  NoDup (List.map TaskListRow.name l) ->
  (forall e, In e l -> TaskListRow.name e = new_name -> TaskListRow.id e = pk) ->
  NoDup (List.map TaskListRow.name (List.map rename l)).
Proof.
  induction l as [|a l IH]; cbn [List.map]; intros Hk Hn Hown;
    [constructor|].
  inversion Hk as [|? ? Hka Hkl]; subst.
  inversion Hn as [|? ? Hna Hnl]; subst.
  constructor.
  - intros Hin. rewrite map_map in Hin. apply in_map_iff in Hin.
    destruct Hin as (r & Hr & Hrl).
    destruct (rename_name r) as [[Hrid Hrname]|[Hrid Hrsame]];
      destruct (rename_name a) as [[Haid Haname]|[Haid Hasame]].
    + apply Hka. rewrite Haid, <- Hrid. now apply in_map.
    + rewrite Hasame, Hrname in Hr. apply Haid.
      apply Hown; [now left | congruence].
    + rewrite Hrsame, Haname in Hr. apply Hrid.
      apply Hown; [now right | exact Hr].
    + rewrite Hrsame, Hasame in Hr. apply Hna. rewrite <- Hr.
      now apply in_map.
  - apply IH; [assumption | assumption |].
    intros e He. apply Hown. now right.
Qed.

Lemma same_name_same_row (l : list TaskListRow.t) (a b : TaskListRow.t) :
  NoDup (List.map TaskListRow.name l) ->
  In a l -> In b l -> TaskListRow.name a = TaskListRow.name b -> a = b.
Proof.
  induction l as [|x l IH]; cbn; intros Hn Ha Hb Hab; [contradiction|].
  inversion Hn as [|? ? Hx Hl]; subst.
  destruct Ha as [->|Ha], Hb as [->|Hb]; auto.
  - exfalso. apply Hx. rewrite Hab. now apply in_map.
  - exfalso. apply Hx. rewrite <- Hab. now apply in_map.
Qed.

End Renaming.

(** The renaming endpoint on a list that exists and a name no other list
    bears. *)
Lemma update_task_list_run (task_list_id : Z) (new_name : str)
    (s : Orm.Session) (tl : TaskListRow.t) :
  List.find (fun r => TaskListRow.id r =? task_list_id)
            (Orm.task_list (Orm.working s)) = Some tl ->
  (forall e, List.find (fun r => str_eqb (TaskListRow.name r) new_name)
                       (Orm.task_list (Orm.working s)) = Some e ->
             TaskListRow.id e = task_list_id) ->
  exists row s',
    TaskListEndpoints.update_task_list_endpoint task_list_id (Some new_name) s
    = (Returned row, s')
    /\ TaskListRow.id row = task_list_id
    /\ TaskListRow.name row = new_name
    /\ Orm.committed s' = Orm.working s'
    /\ Orm.task_list (Orm.committed s')
       = List.map (fun r =>
           if TaskListRow.id r =? task_list_id then
             if str_eqb (TaskListRow.name r) new_name then r
             else TaskListRow.mk (TaskListRow.id r) new_name
                    (TaskListRow.created_at r) (Orm.clock s)
           else r) (Orm.task_list (Orm.working s)).
Proof.
  intros Hfind Hown.
  assert (Hid : TaskListRow.id tl = task_list_id).
  { apply find_some in Hfind. destruct Hfind as [_ H]. now apply Z.eqb_eq. }
  unfold TaskListEndpoints.update_task_list_endpoint,
    TaskListEndpoints.endpoint, TaskListRepository.get_by_id,
    TaskListRepository.get_by_name, bind.
  rewrite first_task_list, Hfind, first_task_list.
  cbn [Orm.note Orm.working].
  set (rename := fun r : TaskListRow.t =>
         if TaskListRow.id r =? task_list_id then
           if str_eqb (TaskListRow.name r) new_name then r
           else TaskListRow.mk (TaskListRow.id r) new_name
                  (TaskListRow.created_at r) (Orm.clock s)
         else r).
  assert (Hkey : List.find (fun r => TaskListRow.id r =? task_list_id)
                   (List.map rename (Orm.task_list (Orm.working s)))
                 = Some (rename tl)).
  { rewrite find_map_same, Hfind; [reflexivity|].
    intros a. f_equal.
    exact (rename_id task_list_id new_name (Orm.clock s) a). }
  assert (Hname : TaskListRow.name (rename tl) = new_name).
  { destruct (rename_name task_list_id new_name (Orm.clock s) tl)
      as [[_ H]|[H _]]; [exact H | contradiction]. }
  assert (Hrid : TaskListRow.id (rename tl) = task_list_id)
    by (etransitivity;
        [exact (rename_id task_list_id new_name (Orm.clock s) tl) | exact Hid]).
  assert (Hgo :
    forall s0, Orm.working s0 = Orm.working s -> Orm.clock s0 = Orm.clock s ->
      exists s',
        bind (OrmWrites.set_task_list_name (TaskListRow.id tl) new_name)
          (fun _ => bind Orm.commit
             (fun _ => Orm.refresh_task_list (TaskListRow.id tl))) s0
        = (Ok (rename tl), s')
        /\ Orm.committed s' = Orm.working s'
        /\ Orm.task_list (Orm.committed s')
           = List.map rename (Orm.task_list (Orm.working s))).
  { intros s0 Hw Hc.
    unfold OrmWrites.set_task_list_name, Orm.commit, Orm.refresh_task_list,
      Orm.record, bind, get, put, modify, ret.
    cbn [Orm.note Orm.working Orm.committed Orm.clock Orm.events Orm.modified
         Orm.task_list Orm.task fst snd].
    rewrite Hw, Hc, Hid. fold rename. rewrite Hkey.
    unfold Orm.refreshed, ret. eexists. split; [reflexivity|].
    cbn [Orm.note Orm.working Orm.committed Orm.task_list].
    split; reflexivity. }
  destruct (List.find (fun r => str_eqb (TaskListRow.name r) new_name)
              (Orm.task_list (Orm.working s))) as [e|] eqn:He.
  - rewrite (Hown e eq_refl), Z.eqb_refl. cbn [negb].
    destruct (Hgo (Orm.note (Orm.Select Orm.task_list_table)
                     (Orm.note (Orm.Select Orm.task_list_table) s))
                eq_refl eq_refl) as (s' & Hrun & Hcw & Hl).
    unfold bind in Hrun |- *. rewrite Hrun.
    exists (rename tl), s'. auto.
  - destruct (Hgo (Orm.note (Orm.Select Orm.task_list_table)
                     (Orm.note (Orm.Select Orm.task_list_table) s))
                eq_refl eq_refl) as (s' & Hrun & Hcw & Hl).
    unfold bind in Hrun |- *. rewrite Hrun.
    exists (rename tl), s'. auto.
Qed.

(** X19.  On a database whose task lists have pairwise distinct names and
    keys, [update_task_list_endpoint] answers 404 for a key no list bears
    and 409 for a name another list bears, writing nothing in either case;
    otherwise, renaming a list to its own name included, it returns the
    list under the new name and the names stay pairwise distinct. *)
Theorem rename_keeps_names_unique
    (task_list_id : Z) (new_name : str) (s : Orm.Session) :
  unique_names (Orm.working s) ->
  unique_keys (Orm.working s) ->
  let lists := Orm.task_list (Orm.working s) in
  let run := TaskListEndpoints.update_task_list_endpoint task_list_id
               (Some new_name) s in
  ((forall r, In r lists -> TaskListRow.id r <> task_list_id) ->
   (exists d, fst run = HTTPException 404 d) /\ same_database s (snd run))
  /\ ((exists r, In r lists /\ TaskListRow.id r = task_list_id) ->
      (exists e, In e lists /\ TaskListRow.name e = new_name
                 /\ TaskListRow.id e <> task_list_id) ->
      (exists d, fst run = HTTPException 409 d) /\ same_database s (snd run))
  /\ ((exists r, In r lists /\ TaskListRow.id r = task_list_id) ->
      (forall e, In e lists -> TaskListRow.name e = new_name ->
                 TaskListRow.id e = task_list_id) ->
      exists row,
        fst run = Returned row
        /\ TaskListRow.id row = task_list_id
        /\ TaskListRow.name row = new_name
        /\ unique_names (Orm.committed (snd run))
        /\ unique_keys (Orm.committed (snd run))).
Proof.
  intros Hn Hk lists run. subst lists run.
  destruct (List.find (fun r => TaskListRow.id r =? task_list_id)
              (Orm.task_list (Orm.working s))) as [tl|] eqn:Hf.
  - assert (Hex : forall P : Prop,
               (forall r, In r (Orm.task_list (Orm.working s)) ->
                          TaskListRow.id r <> task_list_id) -> P).
    { intros P Hno. exfalso. apply find_some in Hf. destruct Hf as [Hin Hid].
      apply Z.eqb_eq in Hid. exact (Hno tl Hin Hid). }
    split; [apply Hex|]. split.
    + intros _ (e & Hin & Hname & Hid).
      assert (He : List.find (fun r => str_eqb (TaskListRow.name r) new_name)
                     (Orm.task_list (Orm.working s)) = Some e).
      { destruct (List.find (fun r => str_eqb (TaskListRow.name r) new_name)
                    (Orm.task_list (Orm.working s))) as [e'|] eqn:He'.
        - apply find_some in He'. destruct He' as [Hin' Hname'].
          apply str_eqb_eq in Hname'. f_equal.
          apply (same_name_same_row _ e' e Hn Hin' Hin). congruence.
        - exfalso. pose proof (find_none _ _ He' e Hin) as Hno. cbn in Hno.
          apply str_eqb_eq in Hname. congruence. }
      unfold TaskListEndpoints.update_task_list_endpoint,
        TaskListEndpoints.endpoint, TaskListRepository.get_by_id,
        TaskListRepository.get_by_name, bind.
      rewrite first_task_list, Hf, first_task_list.
      cbn [Orm.note Orm.working]. rewrite He.
      apply Z.eqb_neq in Hid. rewrite Hid. cbn.
      split; [eauto | split; reflexivity].
    + intros _ Hown.
      destruct (@update_task_list_run task_list_id new_name s tl Hf)
        as (row & s' & Hrun & Hid & Hname & Hcw & Hlists).
      { intros e He. apply find_some in He. destruct He as [Hin Hname].
        apply str_eqb_eq in Hname. now apply Hown. }
      rewrite Hrun. cbn [fst snd]. exists row.
      split; [reflexivity|]. split; [exact Hid|]. split; [exact Hname|].
      unfold unique_names, unique_keys in *. rewrite Hlists. split.
      * apply rename_keeps_names_distinct; assumption.
      * rewrite map_map.
        rewrite (map_ext _ TaskListRow.id); [exact Hk|].
        intros a. apply rename_id.
  - split; [|split].
    + intros _.
      unfold TaskListEndpoints.update_task_list_endpoint,
        TaskListEndpoints.endpoint, TaskListRepository.get_by_id, bind.
      rewrite first_task_list, Hf. cbn.
      split; [eauto | split; reflexivity].
    + intros (r & Hin & Hid). exfalso.
      pose proof (find_none _ _ Hf r Hin) as Hno. cbn in Hno.
      apply Z.eqb_neq in Hno. contradiction.
    + intros (r & Hin & Hid). exfalso.
      pose proof (find_none _ _ Hf r Hin) as Hno. cbn in Hno.
      apply Z.eqb_neq in Hno. contradiction.
Qed.

(** X19, on "Sprint 1" and "Backlog": renaming "Backlog" to "Sprint 1" is
    refused, renaming it to "Backlog" is accepted. *)
Lemma rename_keeps_names_unique_witness :
  (exists d, fst (TaskListEndpoints.update_task_list_endpoint 2
                    (Some (of_string "Sprint 1")) two_lists)
             = HTTPException 409 d)
  /\ (exists row, fst (TaskListEndpoints.update_task_list_endpoint 2
                         (Some (of_string "Backlog")) two_lists)
                  = Returned row).
Proof.
  assert (Hn : unique_names (Orm.working two_lists)).
  { unfold unique_names. cbn. repeat constructor; cbn; intuition discriminate. }
  assert (Hk : unique_keys (Orm.working two_lists)).
  { unfold unique_keys. cbn. repeat constructor; cbn; intuition discriminate. }
  split.
  - destruct (rename_keeps_names_unique 2 (of_string "Sprint 1") two_lists
                Hn Hk) as (_ & Hconflict & _).
    destruct Hconflict as [Hd _]; [| |exact Hd].
    + exists backlog. split; [cbn; auto | reflexivity].
    + exists sprint_1. split; [cbn; auto|]. split; [reflexivity|discriminate].
  - eexists. vm_compute. reflexivity.
Defined.

(* ================================================================== *)
(** * Further properties: the listing endpoint *)
(* ================================================================== *)

(** X20.  [list_tasks_endpoint] treats [task_list_id = 0] as no task list
    at all: it answers as without the parameter, with the filtered page
    across every list, and never 404; for any other key that no list bears
    it answers 404, and for a key a list bears it answers the page of that
    list. *)
Theorem zero_task_list_id_is_no_filter
    (status : option TaskStatus.t) (priority : option TaskPriority.t)
    (user_id : option Z) (skip lim : nat) (s : Orm.Session) :
  TaskEndpoints.list_tasks_endpoint (Some 0) status priority user_id skip lim s
  = TaskEndpoints.list_tasks_endpoint None status priority user_id skip lim s
  /\ fst (TaskEndpoints.list_tasks_endpoint (Some 0) status priority user_id
            skip lim s)
     = Returned (firstn lim (skipn skip
                   (List.filter (row_matches None user_id status priority)
                                (Orm.task (Orm.working s)))))
  /\ (forall id, id <> 0 ->
        (forall r, In r (Orm.task_list (Orm.working s)) ->
                   TaskListRow.id r <> id) ->
        exists d, fst (TaskEndpoints.list_tasks_endpoint (Some id) status
                         priority user_id skip lim s)
                  = HTTPException 404 d)
  /\ (forall id, id <> 0 ->
        (exists r, In r (Orm.task_list (Orm.working s))
                   /\ TaskListRow.id r = id) ->
        fst (TaskEndpoints.list_tasks_endpoint (Some id) status priority
               user_id skip lim s)
        = Returned (firstn lim (skipn skip
                      (List.filter
                         (row_matches (Some id) user_id status priority)
                         (Orm.task (Orm.working s)))))).
Proof.
  split; [reflexivity|]. split; [|split].
  - unfold TaskEndpoints.list_tasks_endpoint, TaskEndpoints.endpoint,
      UseCases.list_all_tasks, TaskEndpoints.convert_optional.
    cbn [Z.eqb negb]. now rewrite get_tasks_with_filters_exact.
  - intros id Hid Hmissing.
    assert (Hf : List.find (fun r => TaskListRow.id r =? id)
                   (Orm.task_list (Orm.working s)) = None).
    { apply find_none_iff. intros r Hr. apply Z.eqb_neq. now apply Hmissing. }
    unfold TaskEndpoints.list_tasks_endpoint, TaskEndpoints.endpoint,
      TaskEndpoints.convert_optional, bind.
    apply Z.eqb_neq in Hid. rewrite Hid. cbn [negb].
    rewrite (list_tasks_missing _ status priority user_id skip lim _ Hf).
    cbn. eauto.
  - intros id Hid (r & Hin & Hr).
    destruct (List.find (fun r => TaskListRow.id r =? id)
                (Orm.task_list (Orm.working s))) as [tl|] eqn:Hf.
    + unfold TaskEndpoints.list_tasks_endpoint, TaskEndpoints.endpoint,
        TaskEndpoints.convert_optional, bind.
      apply Z.eqb_neq in Hid. rewrite Hid. cbn [negb].
      rewrite (list_tasks_run _ status priority user_id skip lim _ Hf).
      reflexivity.
    + exfalso. pose proof (find_none _ _ Hf r Hin) as Hno. cbn in Hno.
      apply Z.eqb_neq in Hno. contradiction.
Qed.

(** X20, on two lists: key 0 lists the three tasks, key 9 is not found. *)
Lemma zero_task_list_id_is_no_filter_witness :
  (exists page,
     fst (TaskEndpoints.list_tasks_endpoint (Some 0) None None None 0 100
            two_lists) = Returned page
     /\ List.map TaskRow.id page = [1; 2; 3])
  /\ (exists d,
        fst (TaskEndpoints.list_tasks_endpoint (Some 9) None None None 0 100
               two_lists) = HTTPException 404 d).
Proof.
  split.
  - eexists. split; [reflexivity | reflexivity].
  - refine (proj1 (proj2 (proj2
             (zero_task_list_id_is_no_filter None None None 0 100 two_lists)))
             9 _ _); [discriminate|].
    intros r [<-|[<-|[]]]; discriminate.
Defined.

(* ================================================================== *)
(** * Further properties: what the notifier records *)
(* ================================================================== *)

Section NotifierRecords.

Import Notification.

Ltac open_notifier :=
  unfold send_task_assignment_notification, assignment_body,
    send_task_unassignment_notification, unassignment_body,
    send_task_status_change_notification, status_change_body,
    try_except, or_else, no_description, getattr, log, lift, bind, ret, modify;
  cbn [fst snd
       TaskObj.id TaskObj.title TaskObj.description TaskObj.status
       TaskObj.priority UserObj.name UserObj.email].

Ltac read_attributes :=
  repeat match goal with
         | |- context [match ?a with Ok _ => _ | Raise _ => _ end] =>
             is_var a; destruct a; cbn [fst snd]
         | |- context [if truthy ?v then _ else _] =>
             destruct (truthy v); cbn [fst snd]
         end.

Ltac count_records :=
  eexists _, _; split; [reflexivity|];
  rewrite ?emails_app; cbn [emails List.filter List.map fst snd];
  rewrite <- ?app_assoc; cbn [app];
  split; [reflexivity | reflexivity].

Lemma assignment_sends_iff_true (task : TaskObj.t) (user : UserObj.t)
    (l : Logger) :
  sends_iff_true (send_task_assignment_notification task user l) l.
Proof.
  unfold sends_iff_true.
  destruct task as [tid title descr st pr], user as [name email].
  open_notifier. read_attributes; count_records.
Qed.

Lemma unassignment_sends_iff_true (task : TaskObj.t) (user : UserObj.t)
    (l : Logger) :
  sends_iff_true (send_task_unassignment_notification task user l) l.
Proof.
  unfold sends_iff_true.
  destruct task as [tid title descr st pr], user as [name email].
  open_notifier. read_attributes; count_records.
Qed.

Lemma status_change_sends_iff_true (task : TaskObj.t) (old_status : str)
    (user : UserObj.t) (l : Logger) :
  sends_iff_true
    (send_task_status_change_notification task old_status (Some user) l) l.
Proof.
  unfold sends_iff_true.
  destruct task as [tid title descr st pr], user as [name email].
  open_notifier. read_attributes; count_records.
Qed.

End NotifierRecords.

(** X21.  A notification reports [True] exactly when it has recorded one
    e-mail, and [False] when it has recorded none; the status-change
    notification called without an assigned user records no e-mail. *)
Theorem notifier_sends_iff_true
    (task : Notification.TaskObj.t) (user : Notification.UserObj.t)
    (old_status : str) (l : Notification.Logger) :
  sends_iff_true
    (Notification.send_task_assignment_notification task user l) l
  /\ sends_iff_true
       (Notification.send_task_unassignment_notification task user l) l
  /\ sends_iff_true
       (Notification.send_task_status_change_notification task old_status
          (Some user) l) l
  /\ Notification.emails
       (snd (Notification.send_task_status_change_notification task
               old_status None l))
     = Notification.emails l.
Proof.
  split; [apply assignment_sends_iff_true|].
  split; [apply unassignment_sends_iff_true|].
  split; [apply status_change_sends_iff_true|].
  unfold Notification.send_task_status_change_notification,
    Notification.getattr, Notification.log, lift, bind, ret, modify.
  destruct (Notification.TaskObj.id task); cbn [snd]; [|reflexivity].
  rewrite emails_app. cbn. apply app_nil_r.
Qed.
